(** * Cash-flow dashboard frontend: a shallow embedding and its properties

    The development follows the React frontend of the cash-flow forecasting
    application: the dashboard KPIs ([Dashboard.jsx]), the scenario simulator
    component ([ScenarioSimulator.jsx]), the transactions page
    ([Transactions.jsx]), the axios client with its interceptors
    ([services/api]) and the authentication context ([AuthContext.jsx]).

    JavaScript numbers are IEEE 754 binary64 values and are modelled by Rocq's
    primitive [float]; objects used as records of named fields are finite maps
    from property names to values. *)

From Stdlib Require Import ZArith Floats Lia Ascii String.
From stdpp Require Import gmap strings list pretty.

Local Open Scope Z_scope.

(** ** JavaScript values and the built-in operations the components use *)

Module JS.

(** A JavaScript number. *)
Definition number := float.

(** The language values that flow through the components: JSON data received
    from the backend and the component state built from it. *)
#[warnings="-register-all"]
Inductive value :=
  | VUndefined
  | VNull
  | VBool (b : bool)
  | VNumber (n : number)
  | VString (s : string)
  | VObject (o : gmap string value).

(** An object read as a record of named fields. *)
Abbreviation obj := (gmap string value).

(** [o.k]: reading a property that is absent yields [undefined]. *)
Definition get (o : obj) (k : string) : value := default VUndefined (o !! k).

(** [{...a, ...b}]: the properties of [b] override those of [a]. *)
Definition spread (a b : obj) : obj := b ∪ a.

(** *** Characters and digits *)

(** White space and line terminators, among the ASCII characters. *)
Definition is_whitespace (c : ascii) : bool :=
  let n := N_of_ascii c in
  ((9 <=? n) && (n <=? 13) || (n =? 32))%N.

Definition digit_of (c : ascii) : option Z :=
  let n := Z.of_N (N_of_ascii c) in
  if (48 <=? n) && (n <=? 57) then Some (n - 48) else None.

Definition hex_digit_of (c : ascii) : option Z :=
  let n := Z.of_N (N_of_ascii c) in
  if (48 <=? n) && (n <=? 57) then Some (n - 48)
  else if (65 <=? n) && (n <=? 70) then Some (n - 55)
  else if (97 <=? n) && (n <=? 102) then Some (n - 87)
  else None.

Fixpoint trim_start (s : string) : string :=
  match s with
  | String c r => if is_whitespace c then trim_start r else s
  | EmptyString => s
  end.

Fixpoint all_whitespace (s : string) : bool :=
  match s with
  | String c r => is_whitespace c && all_whitespace r
  | EmptyString => true
  end.

(** [read_digits base digit acc n s]: consumes the longest run of digits at
    the head of [s]; returns the accumulated integer, the number of digits
    read and the rest of the string. *)
Fixpoint read_digits (base : Z) (digit : ascii -> option Z)
    (acc : Z) (n : Z) (s : string) : Z * Z * string :=
  match s with
  | String c r =>
      match digit c with
      | Some d => read_digits base digit (base * acc + d) (n + 1) r
      | None => (acc, n, s)
      end
  | EmptyString => (acc, n, s)
  end.

(** *** Decimal to binary64 conversion, correctly rounded *)

(** The binary64 value nearest to [(-1)^neg * m * 10^e10]. *)
Definition number_of_decimal (neg : bool) (m : Z) (e10 : Z) : number :=
  if m =? 0 then (if neg then neg_zero else PrimFloat.zero)
  else if 0 <=? e10 then
    SF2Prim (binary_normalize prec emax
               ((if neg then - m else m) * 10 ^ e10) 0 false)
  else
    SF2Prim (SFdiv prec emax
               (S754_finite neg (Z.to_pos m) 0)
               (S754_finite false (Z.to_pos (10 ^ (- e10))) 0)).

(** The binary64 value nearest to the integer [m]. *)
Definition number_of_Z (m : Z) : number :=
  number_of_decimal (m <? 0) (Z.abs m) 0.

(** *** [StrDecimalLiteral] prefixes *)

(** The exponent part [e±ddd] at the head of [s], when there is one. *)
Definition read_exponent (s : string) : Z * string :=
  match s with
  | String c r =>
      if (Ascii.eqb c "e" || Ascii.eqb c "E")%bool then
        let '(neg, r') :=
          match r with
          | String "+" r' => (false, r')
          | String "-" r' => (true, r')
          | _ => (false, r)
          end in
        let '(e, n, rest) := read_digits 10 digit_of 0 0 r' in
        if n =? 0 then (0, s) else ((if neg then - e else e), rest)
      else (0, s)
  | EmptyString => (0, s)
  end.

Definition starts_with (p s : string) : option string :=
  if String.prefix p s
  then Some (String.substring (String.length p)
                              (String.length s - String.length p) s)
  else None.

(** The longest prefix of [s] that is a [StrDecimalLiteral], as the number it
    denotes, with the unread rest; [None] when no prefix is one. *)
Definition read_decimal_literal (s : string) : option (number * string) :=
  let '(neg, s1) :=
    match s with
    | String "+" r => (false, r)
    | String "-" r => (true, r)
    | _ => (false, s)
    end in
  match starts_with "Infinity" s1 with
  | Some rest => Some ((if neg then neg_infinity else infinity), rest)
  | None =>
      let '(ip, ni, s2) := read_digits 10 digit_of 0 0 s1 in
      let '(m, nf, s3) :=
        match s2 with
        | String "." r => read_digits 10 digit_of ip 0 r
        | _ => (ip, 0, s2)
        end in
      if (ni =? 0) && (nf =? 0) then None
      else
        let '(e, rest) := read_exponent s3 in
        Some (number_of_decimal neg m (e - nf), rest)
  end.

(** The global function [parseFloat] applied to a string. *)
Definition parseFloat (s : string) : number :=
  match read_decimal_literal (trim_start s) with
  | Some (n, _) => n
  | None => nan
  end.

(** [0x], [0o] and [0b] integer literals. *)
Definition read_non_decimal (s : string) : option (Z * (ascii -> option Z) * string) :=
  match s with
  | String "0" (String c r) =>
      if (Ascii.eqb c "x" || Ascii.eqb c "X")%bool then Some (16, hex_digit_of, r)
      else if (Ascii.eqb c "o" || Ascii.eqb c "O")%bool then
        Some (8, (fun a => match digit_of a with
                           | Some d => if d <? 8 then Some d else None
                           | None => None end), r)
      else if (Ascii.eqb c "b" || Ascii.eqb c "B")%bool then
        Some (2, (fun a => match digit_of a with
                           | Some d => if d <? 2 then Some d else None
                           | None => None end), r)
      else None
  | _ => None
  end.

(** [StringToNumber]: the whole string, white space trimmed, must be a
    numeric literal; the empty string is [+0]. *)
Definition StringToNumber (s : string) : number :=
  let t := trim_start s in
  if all_whitespace t then PrimFloat.zero
  else
    match read_non_decimal t with
    | Some (base, digit, r) =>
        let '(m, n, rest) := read_digits base digit 0 0 r in
        if (0 <? n) && all_whitespace rest then number_of_Z m else nan
    | None =>
        match read_decimal_literal t with
        | Some (n, rest) => if all_whitespace rest then n else nan
        | None => nan
        end
    end.

(** *** Conversions and operators *)

(** [ToBoolean]: the falsy values are [undefined], [null], [false], [±0],
    [NaN] and the empty string. *)
Definition ToBoolean (v : value) : bool :=
  match v with
  | VUndefined | VNull => false
  | VBool b => b
  | VNumber n => negb (is_zero n || is_nan n)
  | VString s => negb (String.eqb s "")
  | VObject _ => true
  end.

(** [ToNumber] on the values above ([NaN] for an object, which none of the
    modelled expressions converts). *)
Definition ToNumber (v : value) : number :=
  match v with
  | VUndefined => nan
  | VNull => PrimFloat.zero
  | VBool b => if b then PrimFloat.one else PrimFloat.zero
  | VNumber n => n
  | VString s => StringToNumber s
  | VObject _ => nan
  end.

(** [a || b] *)
Definition or (a b : value) : value := if ToBoolean a then a else b.

(** [!a] *)
Definition not (a : value) : bool := negb (ToBoolean a).

(** [a / b] *)
Definition div (a b : value) : number := (ToNumber a / ToNumber b)%float.

(** [a * b] *)
Definition mul (a b : value) : number := (ToNumber a * ToNumber b)%float.

(** [Math.abs(a)] *)
Definition Math_abs (a : value) : number := abs (ToNumber a).

End JS.

(** ** Dashboard.jsx: the KPI values derived for the cards *)

Module Dashboard.
Import JS.

(** [transactionSummary.net_cash_flow || 50000] *)
Definition currentBalance (transactionSummary : obj) : value :=
  JS.or (get transactionSummary "net_cash_flow") (VNumber 50000%float).

(** [forecastData.length > 0
      ? forecastData[forecastData.length - 1]?.predicted_cash_balance || currentBalance
      : currentBalance] *)
Definition projectedBalance (forecastData : list obj) (transactionSummary : obj) : value :=
  match last forecastData with
  | Some p => JS.or (get p "predicted_cash_balance") (currentBalance transactionSummary)
  | None => currentBalance transactionSummary
  end.

(** [summary.cash_runway_days || 90] *)
Definition cashRunwayDays (summary : obj) : value :=
  JS.or (get summary "cash_runway_days") (VNumber 90%float).

(** [Math.abs(transactionSummary.total_expenses / 3) || 8000] *)
Definition monthlyBurnRate (transactionSummary : obj) : value :=
  JS.or
    (VNumber (Math_abs (VNumber (JS.div (get transactionSummary "total_expenses")
                                        (VNumber 3%float)))))
    (VNumber 8000%float).

(** The burn rate in the words of the specification of the KPI calculator:
    the average of [|total_expenses|] over the number of whole months
    spanned by the history, with a minimum denominator of 1. *)
Definition spec_monthly_burn_rate (total_expenses : number) (months : Z) : number :=
  (abs total_expenses / number_of_Z (Z.max 1 months))%float.

End Dashboard.

(** ** The forecasting engine behind [/api/forecast] and [/api/simulate]

    The engine runs on the server; the frontend only calls it. Its contract is
    taken from the specification. Amounts are binary64 numbers, dates are day
    numbers. *)

Module Engine.
Import JS.

(** Modelled from the spec: a point of the daily series the server-side
    aggregator produces (the aggregator is absent from the frontend
    sources). *)
Record DailyPoint := {
  date : Z;
  net_amount : number;
  cumulative_balance : number
}.

(** Modelled from the spec: a point of a projection, with its optional
    confidence bounds. *)
Record ForecastPoint := {
  forecast_date : Z;
  predicted_balance : number;
  predicted_income : number;
  predicted_expenses : number;
  confidence_lower : option number;
  confidence_upper : option number
}.

(** Modelled from the spec: what [forecast] hands back, the low-data
    condition being a flag of the result and not a failure. *)
Record ForecastResult := {
  points : list ForecastPoint;
  low_data : bool
}.

(** Modelled from the spec: the one hard error of the engine. *)
Inductive ForecastError := InvalidParameterError.

(** Modelled from the spec: the strategy asked for. *)
Inductive Strategy := primary | fallback.

(** Modelled from the spec: the balance a projection starts from is the
    cumulative balance of the last historical point; an empty history stands
    at the starting balance the running sum is seeded with. *)
Definition last_known_balance (starting_balance : number) (history : list DailyPoint) : number :=
  match last history with
  | Some p => cumulative_balance p
  | None => starting_balance
  end.

(** Modelled from the spec: projections are dated on the consecutive days
    that follow the last historical date; [origin] dates an empty history. *)
Definition last_date (origin : Z) (history : list DailyPoint) : Z :=
  match last history with
  | Some p => date p
  | None => origin
  end.

(** Modelled from the spec: one point of the flat projection; the balance
    stays at [b], no flow is predicted, and the confidence bounds, when asked
    for, equal the point estimate. *)
Definition flat_point (b : number) (with_confidence : bool) (d : Z) : ForecastPoint :=
  {| forecast_date := d;
     predicted_balance := b;
     predicted_income := PrimFloat.zero;
     predicted_expenses := PrimFloat.zero;
     confidence_lower := if with_confidence then Some b else None;
     confidence_upper := if with_confidence then Some b else None |}.

(** Modelled from the spec: the flat projection over [n] days after [d0]. *)
Definition flat_projection (b : number) (with_confidence : bool) (d0 : Z) (n : nat)
  : list ForecastPoint :=
  map (fun i => flat_point b with_confidence (d0 + Z.of_nat i)) (seq 1 n).

Section Forecast.

(** The fitted models are not fixed by the specification: the statistical
    model may fail to fit ([None]), the linear regression never does. *)
Variable statistical_fit : list DailyPoint -> nat -> bool -> option (list ForecastPoint).
Variable linear_fit : list DailyPoint -> nat -> bool -> list ForecastPoint.
Variable starting_balance : number.
Variable origin : Z.

(** Modelled from the spec: [forecast(history, days_ahead, model,
    with_confidence)] of the forecast model (the server-side engine, absent
    from the frontend sources).  [days_ahead <= 0] is rejected; fewer than 2
    historical points give the flat projection and raise the low-data flag;
    otherwise the primary strategy is tried and the linear one is the
    fall-back. *)
Definition forecast (history : list DailyPoint) (days_ahead : Z)
    (model : Strategy) (with_confidence : bool) : ForecastError + ForecastResult :=
  if days_ahead <=? 0 then inl InvalidParameterError
  else
    let n := Z.to_nat days_ahead in
    if (length history <? 2)%nat then
      inr {| points := flat_projection (last_known_balance starting_balance history)
                         with_confidence (last_date origin history) n;
             low_data := true |}
    else
      let fitted :=
        match model with
        | primary =>
            match statistical_fit history n with_confidence with
            | Some ps => ps
            | None => linear_fit history n with_confidence
            end
        | fallback => linear_fit history n with_confidence
        end in
      inr {| points := fitted; low_data := false |}.

End Forecast.

End Engine.

(** ** ScenarioSimulator.jsx: the parameter state and its event handlers *)

Module ScenarioSimulator.
Import JS.

(** A preset as [/api/simulate/presets] lists them. *)
Record preset := {
  name : value;
  description : value;
  preset_parameters : obj
}.

(** The component state: four [useState] cells. *)
Record state := {
  parameters : obj;
  result : value;
  loading : bool;
  presets : list preset
}.

(** The object literal of [useState] and of [resetParameters]. *)
Definition default_parameters : obj :=
  <["revenue_change_percent" := VNumber 0%float]>
  (<["expense_change_percent" := VNumber 0%float]>
  (<["one_time_income" := VNumber 0%float]>
  (<["one_time_expense" := VNumber 0%float]>
  (<["days_ahead" := VNumber 90%float]>
  (<["scenario_name" := VString "Custom Scenario"]> ∅))))).

Definition initial : state :=
  {| parameters := default_parameters; result := VNull;
     loading := false; presets := [] |}.

Definition setParameters (st : state) (p : obj) : state :=
  {| parameters := p; result := result st;
     loading := loading st; presets := presets st |}.

Definition setResult (st : state) (r : value) : state :=
  {| parameters := parameters st; result := r;
     loading := loading st; presets := presets st |}.

Definition setLoading (st : state) (l : bool) : state :=
  {| parameters := parameters st; result := result st;
     loading := l; presets := presets st |}.

Definition setPresets (st : state) (ps : list preset) : state :=
  {| parameters := parameters st; result := result st;
     loading := loading st; presets := ps |}.

(** [setParameters({...parameters, ...preset.parameters})] *)
Definition applyPreset (st : state) (p : preset) : state :=
  setParameters st (spread (parameters st) (preset_parameters p)).

Definition resetParameters (st : state) : state :=
  setResult (setParameters st default_parameters) VNull.

(** The [onChange] handlers of the two sliders:
    [{...parameters, k: parseFloat(e.target.value)}]. *)
Definition onChange_slider (k : string) (st : state) (target_value : string) : state :=
  setParameters st (<[k := VNumber (parseFloat target_value)]> (parameters st)).

(** The [onChange] handlers of the two number inputs:
    [{...parameters, k: parseFloat(e.target.value) || 0}]. *)
Definition onChange_amount (k : string) (st : state) (target_value : string) : state :=
  setParameters st
    (<[k := JS.or (VNumber (parseFloat target_value)) (VNumber 0%float)]> (parameters st)).

(** What the user and the network can do to the component. *)
Inductive event :=
  | PresetsLoaded (ps : list preset)
  | ClickPreset (index : nat)
  | ChangeRevenue (target_value : string)
  | ChangeExpense (target_value : string)
  | ChangeOneTimeIncome (target_value : string)
  | ChangeOneTimeExpense (target_value : string)
  | ClickRun
  | SimulationSettled (response_data : option value)
  | ClickReset.

(** One event: the next state and the bodies posted to [/api/simulate].
    Only the first four presets have a button; the run button is disabled
    while a simulation is loading. *)
Definition handle (st : state) (e : event) : state * list obj :=
  match e with
  | PresetsLoaded ps => (setPresets st ps, [])
  | ClickPreset i =>
      match take 4 (presets st) !! i with
      | Some p => (applyPreset st p, [])
      | None => (st, [])
      end
  | ChangeRevenue v => (onChange_slider "revenue_change_percent" st v, [])
  | ChangeExpense v => (onChange_slider "expense_change_percent" st v, [])
  | ChangeOneTimeIncome v => (onChange_amount "one_time_income" st v, [])
  | ChangeOneTimeExpense v => (onChange_amount "one_time_expense" st v, [])
  | ClickRun =>
      if loading st then (st, [])
      else (setLoading st true, [parameters st])
  | SimulationSettled (Some d) => (setLoading (setResult st d) false, [])
  | SimulationSettled None => (setLoading st false, [])
  | ClickReset => (resetParameters st, [])
  end.

(** A session: the events in order, with every request issued on the way. *)
Fixpoint run (st : state) (evs : list event) : state * list obj :=
  match evs with
  | [] => (st, [])
  | e :: evs' =>
      let '(st1, out1) := handle st e in
      let '(st2, out2) := run st1 evs' in
      (st2, out1 ++ out2)
  end.

(** The field an input event assigns, with the value it stores. *)
Definition assignment (e : event) : option (string * value) :=
  match e with
  | ChangeRevenue v =>
      Some ("revenue_change_percent", VNumber (parseFloat v))
  | ChangeExpense v =>
      Some ("expense_change_percent", VNumber (parseFloat v))
  | ChangeOneTimeIncome v =>
      Some ("one_time_income", JS.or (VNumber (parseFloat v)) (VNumber 0%float))
  | ChangeOneTimeExpense v =>
      Some ("one_time_expense", JS.or (VNumber (parseFloat v)) (VNumber 0%float))
  | _ => None
  end.

(** The values an [<input type="range" min max step>] can hold: the points
    [min + k * step] up to [max], as decimal strings. *)
Definition range_values (min max step : Z) : list string :=
  map (fun k => pretty (min + step * Z.of_nat k))
      (seq 0 (S (Z.to_nat ((max - min) / step)))).

(** Both sliders are declared with [min="-50" max="100" step="5"]. *)
Definition slider_values : list string := range_values (-50) 100 5.

(** Events the rendered controls can deliver: a slider reports one of its
    own values; the number inputs report any text. *)
Definition deliverable (e : event) : Prop :=
  match e with
  | ChangeRevenue v | ChangeExpense v => v ∈ slider_values
  | _ => True
  end.

(** Ranges of the parameters. *)
Definition number_in (lo hi : number) (v : value) : bool :=
  match v with
  | VNumber n => (lo <=? n)%float && (n <=? hi)%float
  | _ => false
  end.

Arguments number_in (lo hi)%_float v.

Definition positive_up_to (hi : number) (v : value) : bool :=
  match v with
  | VNumber n => (0 <? n)%float && (n <=? hi)%float
  | _ => false
  end.

Arguments positive_up_to hi%_float v.

Definition non_negative (v : value) : bool :=
  match v with
  | VNumber n => (0 <=? n)%float
  | _ => false
  end.

(** A preset sets field [k] only to values that satisfy [P]. *)
Definition preset_keeps (k : string) (P : value -> bool) (p : preset) : Prop :=
  forall v, preset_parameters p !! k = Some v -> P v = true.

(** The presets an event brings in all keep [k] within [P]. *)
Definition presets_keep (k : string) (P : value -> bool) (e : event) : Prop :=
  match e with
  | PresetsLoaded ps => Forall (preset_keeps k P) (take 4 ps)
  | _ => True
  end.

(** Field [k] of the parameters satisfies [P], and every preset that has a
    button keeps it so. *)
Definition field_ok (k : string) (P : value -> bool) (st : state) : Prop :=
  P (get (parameters st) k) = true
  /\ Forall (preset_keeps k P) (take 4 (presets st)).

(** The text typed in a number input parses to a non-negative number, or
    does not parse at all. *)
Definition amount_entry_ok (e : event) : Prop :=
  match e with
  | ChangeOneTimeIncome v | ChangeOneTimeExpense v =>
      (0 <=? parseFloat v)%float = true \/ is_nan (parseFloat v) = true
  | _ => True
  end.

End ScenarioSimulator.

(** ** services/api: the axios instance and its interceptors *)

Module Api.
Import JS.

Record response := {
  status : Z;
  data : value
}.

(** What a request is rejected with: [error.response] is absent when no
    response was received at all. *)
Record error := {
  message : string;
  error_response : option response
}.

(** A settled promise. *)
Inductive promise (A : Type) :=
  | Fulfilled (a : A)
  | Rejected (e : error).
Arguments Fulfilled {A} a.
Arguments Rejected {A} e.

(** The part of the browser the client touches. *)
Record browser := {
  localStorage : gmap string string;
  location_href : string
}.

(** Request interceptor: the stored token, when there is a non-empty one,
    becomes the [Authorization] header. *)
Definition on_request (headers : gmap string string) (b : browser) : gmap string string :=
  match localStorage b !! "token" with
  | Some token =>
      if String.eqb token "" then headers
      else <["Authorization" := "Bearer " +:+ token]> headers
  | None => headers
  end.

(** [error.response?.status] *)
Definition error_status (e : error) : option Z := status <$> error_response e.

(** Response interceptor, success handler: [(response) => response]. *)
Definition on_response (r : response) (b : browser) : browser * promise response :=
  (b, Fulfilled r).

(** Response interceptor, error handler. *)
Definition on_response_error (e : error) (b : browser) : browser * promise response :=
  let b' :=
    if decide (error_status e = Some 401) then
      {| localStorage := delete "token" (localStorage b);
         location_href := "/login" |}
    else b in
  (b', Rejected e).

(** axios settles a received response by its default [validateStatus]:
    statuses from 200 to 299 fulfil the request, any other rejects it with an
    error that carries the response. *)
Definition validateStatus (st : Z) : bool := (200 <=? st) && (st <? 300).

Definition status_error (r : response) : error :=
  {| message := "Request failed with status code " +:+ pretty (status r);
     error_response := Some r |}.

(** A response arriving from the server, seen through the interceptor. *)
Definition receive (r : response) (b : browser) : browser * promise response :=
  if validateStatus (status r) then on_response r b
  else on_response_error (status_error r) b.

End Api.

(** ** AuthContext.jsx: [getXeroStatus] *)

Module AuthContext.
Import JS Api.

(** How a function body completes. *)
Inductive completion (A : Type) :=
  | Return (a : A)
  | Throw (e : error).
Arguments Return {A} a.
Arguments Throw {A} e.

(** Computations that may throw and that write to the console. *)
Definition M (A : Type) : Type :=
  list (string * error) -> completion A * list (string * error).

Definition ret {A} (a : A) : M A := fun c => (Return a, c).

Definition bind {A B} (m : M A) (k : A -> M B) : M B :=
  fun c =>
    match m c with
    | (Return a, c') => k a c'
    | (Throw e, c') => (Throw e, c')
    end.

(** [await p]: the value of a fulfilled promise; a rejected one throws. *)
Definition await {A} (p : promise A) : M A :=
  fun c =>
    match p with
    | Fulfilled a => (Return a, c)
    | Rejected e => (Throw e, c)
    end.

(** [try { body } catch (error) { handler }] *)
Definition try_catch {A} (body : M A) (handler : error -> M A) : M A :=
  fun c =>
    match body c with
    | (Return a, c') => (Return a, c')
    | (Throw e, c') => handler e c'
    end.

(** [console.error(label, error)] *)
Definition console_error (label : string) (e : error) : M unit :=
  fun c => (Return tt, c ++ [(label, e)]).

(** [getXeroStatus], given how [api.get('/auth/xero/status')] settles. *)
Definition getXeroStatus (reply : promise response) : M value :=
  try_catch
    (bind (await reply) (fun response => ret (data response)))
    (fun error =>
       bind (console_error "Failed to get Xero status:" error) (fun _ =>
       ret (VObject (<["is_connected" := VBool false]> ∅)))).

End AuthContext.

(** ** Transactions.jsx: the add form and the table *)

Module Transactions.
Import JS.

(** The [newTransaction] state: every field holds the text of its control. *)
Record form := {
  date : string;
  description : string;
  amount : string;
  type : string;
  category : string;
  account_name : string;
  contact_name : string
}.

Definition form_fields (f : form) : obj :=
  <["date" := VString (date f)]>
  (<["description" := VString (description f)]>
  (<["amount" := VString (amount f)]>
  (<["type" := VString (type f)]>
  (<["category" := VString (category f)]>
  (<["account_name" := VString (account_name f)]>
  (<["contact_name" := VString (contact_name f)]> ∅)))))).

(** Calls made to [transactionService]. *)
Inductive call :=
  | create (transactionData : obj)
  | delete (id : value).

Section AddTransaction.

(** [new Date(s).toISOString()]: the ISO text of the date, or [None] when the
    date is invalid and the conversion throws. *)
Variable toISOString : string -> option string.

(** The amount sent:
    [parseFloat(newTransaction.amount) * (newTransaction.type === 'expense' ? -1 : 1)] *)
Definition signed_amount (newTransaction : form) : number :=
  JS.mul (VNumber (parseFloat (amount newTransaction)))
         (VNumber (if String.eqb (type newTransaction) "expense"
                   then (-1)%float else 1%float)).

(** [addTransaction]: the calls made; a throwing date conversion is caught
    before anything is sent. *)
Definition addTransaction (newTransaction : form) : list call :=
  match toISOString (date newTransaction) with
  | Some iso =>
      [create (<["date" := VString iso]>
               (<["amount" := VNumber (signed_amount newTransaction)]>
               (form_fields newTransaction)))]
  | None => []
  end.

End AddTransaction.

(** The page state the table is drawn from. *)
Record state := {
  transactions : list obj;
  loading : bool
}.

Inductive action := DeleteButton (id : value).

(** Table rows: placeholders while loading, a notice when there is nothing
    to show, otherwise one row per transaction with its actions cell. *)
Inductive row :=
  | SkeletonRow
  | EmptyNotice
  | TransactionRow (transaction : obj) (actions : list action).

(** [{!transaction.xero_id && (<button ...>Delete</button>)}] *)
Definition row_actions (transaction : obj) : list action :=
  if JS.not (get transaction "xero_id")
  then [DeleteButton (get transaction "id")]
  else [].

Definition table_body (st : state) : list row :=
  if loading st then replicate 5 SkeletonRow
  else if (length (transactions st) =? 0)%nat then [EmptyNotice]
  else map (fun t => TransactionRow t (row_actions t)) (transactions st).

(** [deleteTransaction(id)]: nothing is sent unless the user confirms. *)
Definition deleteTransaction (id : value) (confirmed : bool) : list call :=
  if confirmed then [delete id] else [].

(** Clicking the [n]-th button of the actions cell of row [i]. *)
Definition click (st : state) (i n : nat) (confirmed : bool) : list call :=
  match table_body st !! i with
  | Some (TransactionRow _ actions) =>
      match actions !! n with
      | Some (DeleteButton id) => deleteTransaction id confirmed
      | None => []
      end
  | _ => []
  end.



End Transactions.

(** ** Further operators of the language *)

Module Operators.
Import JS.

(** [ToPrimitive]: a plain object turns into the text of its default
    [toString]. *)
Definition ToPrimitive (v : value) : value :=
  match v with
  | VObject _ => VString "[object Object]"
  | _ => v
  end.

(** Strings compared by code units. *)
Fixpoint string_ltb (s t : string) : bool :=
  match s, t with
  | EmptyString, EmptyString => false
  | EmptyString, String _ _ => true
  | String _ _, EmptyString => false
  | String a s', String b t' =>
      if (N_of_ascii a <? N_of_ascii b)%N then true
      else if (N_of_ascii b <? N_of_ascii a)%N then false
      else string_ltb s' t'
  end.

(** The relational comparison [a < b]; [None] is its undefined outcome, when
    an operand is [NaN]. *)
Definition less_than (a b : value) : option bool :=
  match ToPrimitive a, ToPrimitive b with
  | VString s, VString t => Some (string_ltb s t)
  | pa, pb =>
      let x := ToNumber pa in
      let y := ToNumber pb in
      if is_nan x || is_nan y then None else Some (x <? y)%float
  end.

(** [a > b] *)
Definition gt (a b : value) : bool :=
  match less_than b a with Some true => true | _ => false end.

(** [a >= b] *)
Definition ge (a b : value) : bool :=
  match less_than a b with Some false => true | _ => false end.

(** [v.k] for the property names the components read (none of them is a
    property of a string, a number or a boolean): reading a property of
    [undefined] or [null] is a [TypeError], here [None]. *)
Definition member (v : value) (k : string) : option value :=
  match v with
  | VUndefined | VNull => None
  | VObject o => Some (get o k)
  | _ => Some VUndefined
  end.

(** [v?.k] *)
Definition optional_member (v : value) (k : string) : value :=
  default VUndefined (member v k).

(** [s.includes(t)] *)
Fixpoint includes (s t : string) : bool :=
  String.prefix t s ||
  match s with
  | String _ s' => includes s' t
  | EmptyString => false
  end.

End Operators.

(** ** Procedures that change a state and may throw *)

Module Effect.
Import Api AuthContext.

Definition action (S A : Type) : Type := S -> completion A * S.

Definition ret {S A} (a : A) : action S A := fun s => (Return a, s).

Definition throw {S A} (e : error) : action S A := fun s => (Throw e, s).

Definition bind {S A B} (m : action S A) (k : A -> action S B) : action S B :=
  fun s =>
    match m s with
    | (Return a, s') => k a s'
    | (Throw e, s') => (Throw e, s')
    end.

Definition modify {S} (f : S -> S) : action S unit := fun s => (Return tt, f s).

Definition gets {S A} (f : S -> A) : action S A := fun s => (Return (f s), s).

(** [try { body } catch (error) { handler }] *)
Definition try_catch {S A} (body : action S A) (handler : error -> action S A)
  : action S A :=
  fun s =>
    match body s with
    | (Return a, s') => (Return a, s')
    | (Throw e, s') => handler e s'
    end.

(** [try { body } finally { cleanup }]: the cleanup runs either way, and the
    completion of the body stands unless the cleanup throws. *)
Definition try_finally {S A} (body : action S A) (cleanup : action S unit)
  : action S A :=
  fun s =>
    match body s with
    | (c, s') =>
        match cleanup s' with
        | (Return _, s'') => (c, s'')
        | (Throw e, s'') => (Throw e, s'')
        end
    end.

(** [await p]: the value of a fulfilled promise; a rejected one throws. *)
Definition await {S A} (p : promise A) : action S A :=
  match p with
  | Fulfilled a => ret a
  | Rejected e => throw e
  end.

(** A [TypeError] raised by the language itself carries no response. *)
Definition TypeError : error :=
  {| message := "TypeError"; error_response := None |}.

(** A value that must be there: reading through [undefined] throws. *)
Definition checked {S A} (o : option A) : action S A :=
  match o with
  | Some a => ret a
  | None => throw TypeError
  end.

(** What the network does with one request: the server answers, or no
    answer arrives (connection failure, the 30 s timeout). *)
Inductive reply :=
  | Responds (r : response)
  | Fails (reason : string).

(** The promise an axios call returns, the response interceptor applied. *)
Definition settle (rep : reply) (b : browser) : browser * promise response :=
  match rep with
  | Responds r => receive r b
  | Fails reason =>
      on_response_error {| message := reason; error_response := None |} b
  end.

(** The reply is a response whose status fulfils the request. *)
Definition accepted (rep : reply) : bool :=
  match rep with
  | Responds r => validateStatus (status r)
  | Fails _ => false
  end.

(** The reply is a response with status 401. *)
Definition unauthorized (rep : reply) : bool :=
  match rep with
  | Responds r => status r =? 401
  | Fails _ => false
  end.

Module Notations.
Notation "'let!' x ':=' m 'in' k" := (bind m (fun x => k))
  (at level 10, x name, m at level 99, k at level 200).
Notation "m ;; k" := (bind m (fun _ => k))
  (at level 100, right associativity).
End Notations.

End Effect.

(** ** AuthContext.jsx: the provider, its state and its actions *)

Module AuthProvider.
Import JS Operators Api AuthContext Effect Effect.Notations.

(** The three [useState] cells of [AuthProvider]. *)
Record session := {
  user : value;
  loading : bool;
  isAuthenticated : bool
}.

(** A request as it leaves the client. *)
Record request := {
  method : string;
  url : string;
  body : value
}.

(** Everything the actions read and write: the browser, the headers axios
    adds to every request ([api.defaults.headers.common]), the provider
    state, the console and the requests issued so far. *)
Record world := {
  browser_state : browser;
  common_headers : gmap string string;
  session_state : session;
  console_log : list (string * error);
  request_log : list request
}.

Definition with_browser (f : browser -> browser) (w : world) : world :=
  {| browser_state := f (browser_state w); common_headers := common_headers w;
     session_state := session_state w; console_log := console_log w;
     request_log := request_log w |}.

Definition with_headers (f : gmap string string -> gmap string string) (w : world) : world :=
  {| browser_state := browser_state w; common_headers := f (common_headers w);
     session_state := session_state w; console_log := console_log w;
     request_log := request_log w |}.

Definition with_session (f : session -> session) (w : world) : world :=
  {| browser_state := browser_state w; common_headers := common_headers w;
     session_state := f (session_state w); console_log := console_log w;
     request_log := request_log w |}.

Definition setUser (u : value) (w : world) : world :=
  with_session (fun s => {| user := u; loading := loading s;
                            isAuthenticated := isAuthenticated s |}) w.

Definition setLoading (l : bool) (w : world) : world :=
  with_session (fun s => {| user := user s; loading := l;
                            isAuthenticated := isAuthenticated s |}) w.

Definition setIsAuthenticated (a : bool) (w : world) : world :=
  with_session (fun s => {| user := user s; loading := loading s;
                            isAuthenticated := a |}) w.

(** [localStorage.setItem(k, v)] and [localStorage.removeItem(k)] *)
Definition setItem (k v : string) (w : world) : world :=
  with_browser (fun b => {| localStorage := <[k := v]> (localStorage b);
                            location_href := location_href b |}) w.

Definition removeItem (k : string) (w : world) : world :=
  with_browser (fun b => {| localStorage := base.delete k (localStorage b);
                            location_href := location_href b |}) w.

(** [window.location.href = s] *)
Definition navigate (s : string) (w : world) : world :=
  with_browser (fun b => {| localStorage := localStorage b;
                            location_href := s |}) w.

Definition with_console (f : list (string * error) -> list (string * error)) (w : world) : world :=
  {| browser_state := browser_state w; common_headers := common_headers w;
     session_state := session_state w; console_log := f (console_log w);
     request_log := request_log w |}.

(** [console.error(label, error)] *)
Definition log_error (label : string) (e : error) : action world unit :=
  modify (with_console (fun c => c ++ [(label, e)])).

Definition record_request (rq : request) (w : world) : world :=
  {| browser_state := browser_state w; common_headers := common_headers w;
     session_state := session_state w; console_log := console_log w;
     request_log := request_log w ++ [rq] |}.

(** [api.get(url)], [api.post(url, body)]: the request is issued, the reply
    goes through the response interceptor, and [await] throws on
    rejection. *)
Definition send (m u : string) (payload : value) (rep : reply) : action world response :=
  fun w =>
    let '(b, p) := settle rep (browser_state w) in
    let w' := record_request {| method := m; url := u; body := payload |}
                (with_browser (fun _ => b) w) in
    match p with
    | Fulfilled r => (Return r, w')
    | Rejected e => (Throw e, w')
    end.

(** [error.response?.data?.detail] *)
Definition detail (e : error) : value :=
  match error_response e with
  | Some r => optional_member (data r) "detail"
  | None => VUndefined
  end.

(** The state before [checkAuth] has run. *)
Definition initial_session : session :=
  {| user := VNull; loading := true; isAuthenticated := false |}.

Section Actions.

(** [Number::toString], which the model leaves open. *)
Variable number_to_string : number -> string.

(** [ToString], as template literals and [localStorage.setItem] apply it. *)
Definition ToString (v : value) : string :=
  match v with
  | VUndefined => "undefined"
  | VNull => "null"
  | VBool b => if b then "true" else "false"
  | VNumber n => number_to_string n
  | VString s => s
  | VObject _ => "[object Object]"
  end.

(** [checkAuth], run once when the provider mounts; [me] is the reply to
    [GET /auth/me] should that request be made. *)
Definition checkAuth (me : reply) : action world unit :=
  try_finally
    (try_catch
       (let! token := gets (fun w => localStorage (browser_state w) !! "token") in
        match token with
        | Some t =>
            if String.eqb t "" then ret tt
            else
              modify (with_headers <["Authorization" := "Bearer " +:+ t]>) ;;
              let! response := send "GET" "/auth/me" VUndefined me in
              modify (setUser (data response)) ;;
              modify (setIsAuthenticated true)
        | None => ret tt
        end)
       (fun error =>
          log_error "Auth check failed:" error ;;
          modify (removeItem "token") ;;
          modify (with_headers (base.delete "Authorization"))))
    (modify (setLoading false)).

(** [login(email, password)]; the replies are those to [POST /auth/login]
    and, if it comes to that, to [GET /auth/me]. *)
Definition login (email password : string) (signin me : reply) : action world value :=
  try_catch
    (let! response :=
       send "POST" "/auth/login"
         (VObject (<["email" := VString email]>
                  (<["password" := VString password]> ∅))) signin in
     let! access_token := checked (member (data response) "access_token") in
     modify (setItem "token" (ToString access_token)) ;;
     modify (with_headers
               <["Authorization" := "Bearer " +:+ ToString access_token]>) ;;
     let! userResponse := send "GET" "/auth/me" VUndefined me in
     modify (setUser (data userResponse)) ;;
     modify (setIsAuthenticated true) ;;
     ret (VObject (<["success" := VBool true]> ∅)))
    (fun error =>
       log_error "Login failed:" error ;;
       ret (VObject (<["success" := VBool false]>
                    (<["error" := JS.or (detail error) (VString "Login failed")]> ∅)))).

(** [register(email, password)] *)
Definition register (email password : string) (signup : reply) : action world value :=
  try_catch
    (send "POST" "/auth/register"
       (VObject (<["email" := VString email]>
                (<["password" := VString password]> ∅))) signup ;;
     ret (VObject (<["success" := VBool true]> ∅)))
    (fun error =>
       log_error "Registration failed:" error ;;
       ret (VObject (<["success" := VBool false]>
                    (<["error" := JS.or (detail error)
                                        (VString "Registration failed")]> ∅)))).

(** [logout()] *)
Definition logout : action world unit :=
  modify (removeItem "token") ;;
  modify (with_headers (base.delete "Authorization")) ;;
  modify (setUser VNull) ;;
  modify (setIsAuthenticated false).

(** [connectXero()]: the browser is sent to the authorization URL; a failure
    is logged and thrown again. *)
Definition connectXero (connect : reply) : action world unit :=
  try_catch
    (let! response := send "GET" "/auth/xero/connect" VUndefined connect in
     let! authorization_url := checked (member (data response) "authorization_url") in
     modify (navigate (ToString authorization_url)))
    (fun error =>
       log_error "Xero connection failed:" error ;;
       throw error).

(** [disconnectXero()] *)
Definition disconnectXero (disconnect : reply) : action world value :=
  try_catch
    (send "POST" "/auth/xero/disconnect" VUndefined disconnect ;;
     ret (VObject (<["success" := VBool true]> ∅)))
    (fun error =>
       log_error "Xero disconnection failed:" error ;;
       ret (VObject (<["success" := VBool false]>
                    (<["error" := VString (message error)]> ∅)))).

End Actions.

(** [AppContent] in the application shell: what is on screen. *)
Inductive screen := Spinner | LoginPage | Pages.

Definition AppContent (s : session) : screen :=
  if loading s then Spinner
  else if negb (isAuthenticated s) then LoginPage
  else Pages.

End AuthProvider.

(** ** ScenarioSimulator.jsx: counting what a session settles *)

Module ScenarioSimulatorSessions.
Import JS ScenarioSimulator.

(** The event is the settling of a simulation request. *)
Definition is_settled (e : event) : bool :=
  match e with
  | SimulationSettled _ => true
  | _ => false
  end.

(** The value is the number 90. *)
Definition is_ninety (v : value) : bool :=
  match v with
  | VNumber n => PrimFloat.Leibniz.eqb n 90%float
  | _ => false
  end.

(** The presets an event brings in leave field [k] alone. *)
Definition preset_omits (k : string) (e : event) : Prop :=
  match e with
  | PresetsLoaded ps => Forall (fun p => preset_parameters p !! k = None) (take 4 ps)
  | _ => True
  end.

End ScenarioSimulatorSessions.

(** ** KPICard.jsx *)

Module KPICard.
Import JS.

(** The icon components imported from [@heroicons/react/24/outline] by the
    card and by the page that draws it, under the names of the imports. *)
Inductive heroicon :=
  | BanknotesIcon
  | CalendarDaysIcon
  | TrendingUpIcon
  | TrendingDownIcon
  | MinusIcon.

(** The props the card reads. *)
Record props := {
  title : string;
  value_text : string;
  icon : heroicon;
  trend : value;
  description : value;
  change : value
}.

(** The default of the [trend] parameter applies when it is not passed. *)
Definition trend_or_default (trend : value) : value :=
  match trend with
  | VUndefined => VString "neutral"
  | _ => trend
  end.

Definition getTrendIcon (trend : value) : heroicon * string :=
  match trend with
  | VString "positive" => (TrendingUpIcon, "h-4 w-4 text-success-500")
  | VString "negative" => (TrendingDownIcon, "h-4 w-4 text-danger-500")
  | _ => (MinusIcon, "h-4 w-4 text-gray-400")
  end.

Definition getTrendColor (trend : value) : string :=
  match trend with
  | VString "positive" => "text-success-600"
  | VString "negative" => "text-danger-600"
  | _ => "text-gray-600"
  end.

Definition getBorderColor (trend : value) : string :=
  match trend with
  | VString "positive" => "border-l-success-500"
  | VString "negative" => "border-l-danger-500"
  | _ => "border-l-primary-500"
  end.

(** [{cond && element}] in JSX: the element when [cond] is truthy; a falsy
    number is drawn as its text; any other falsy value draws nothing. *)
Inductive slot (A : Type) :=
  | Element (a : A)
  | Text (v : value)
  | Nothing.
Arguments Element {A} a.
Arguments Text {A} v.
Arguments Nothing {A}.

Definition guarded {A : Type} (cond : value) (a : A) : slot A :=
  if ToBoolean cond then Element a
  else
    match cond with
    | VNumber _ => Text cond
    | _ => Nothing
    end.

(** What the card draws: its border, the [Icon] element with its class, the
    title and the value, the change badge (icon, colour and text) and the
    description, the last two each under its guard. *)
Record card := {
  card_title : string;
  card_value : string;
  card_icon : heroicon * string;
  border : string;
  badge : slot (heroicon * string * string * value);
  card_description : slot value
}.

Definition render (p : props) : card :=
  let t := trend_or_default (trend p) in
  {| card_title := title p;
     card_value := value_text p;
     card_icon := (icon p, "h-6 w-6 text-gray-400");
     border := getBorderColor t;
     badge := guarded (change p) (getTrendIcon t, getTrendColor t, change p);
     card_description := guarded (description p) (description p) |}.

End KPICard.

(** ** ScenarioSimulator.jsx: the comparison with the baseline *)

Module BaselineComparison.
Import JS Operators.


Section Comparison.

(** [n.toFixed(1)] on a finite number, which the model leaves open. *)
Variable toFixed_finite : number -> string.



End Comparison.

End BaselineComparison.

(** ** Dashboard.jsx: loading the data and drawing the cards *)

Module DashboardPage.
Import JS Operators Api AuthContext Effect Effect.Notations Dashboard.

(** The body of [GET /api/forecast/latest] when properties can be read from
    it: [forecasts] and [summary], either of which may be missing or
    [null]. *)
Record forecast_body := {
  forecasts : option (list obj);
  forecast_summary : option obj
}.

(** The [useState] cells of the page, with the requests made, the console
    and the alerts shown. The transaction summary cell holds the body of
    the last summary answer, whatever it was. *)
Record state := {
  loading : bool;
  forecastData : list obj;
  summary : obj;
  transactionSummary_cell : value;
  requested : list string;
  console : list (string * error);
  alerts : list string
}.

(** The properties the render finds on the stored transaction summary: those
    of an object; a string, a number or a boolean has none of the
    properties read. Reading a property of [null] or [undefined] throws,
    which is [readable]'s concern. *)
Definition transactionSummary (s : state) : obj :=
  match transactionSummary_cell s with
  | VObject o => o
  | _ => ∅
  end.

(** Properties can be read from the stored transaction summary. *)
Definition readable (s : state) : bool :=
  match transactionSummary_cell s with
  | VUndefined | VNull => false
  | _ => true
  end.

Definition initial : state :=
  {| loading := true; forecastData := []; summary := ∅;
     transactionSummary_cell := VObject ∅;
     requested := []; console := []; alerts := [] |}.

Definition setLoading (l : bool) (s : state) : state :=
  {| loading := l; forecastData := forecastData s; summary := summary s;
     transactionSummary_cell := transactionSummary_cell s; requested := requested s;
     console := console s; alerts := alerts s |}.

Definition setForecastData (d : list obj) (s : state) : state :=
  {| loading := loading s; forecastData := d; summary := summary s;
     transactionSummary_cell := transactionSummary_cell s; requested := requested s;
     console := console s; alerts := alerts s |}.

Definition setSummary (o : obj) (s : state) : state :=
  {| loading := loading s; forecastData := forecastData s; summary := o;
     transactionSummary_cell := transactionSummary_cell s; requested := requested s;
     console := console s; alerts := alerts s |}.

Definition setTransactionSummary (v : value) (s : state) : state :=
  {| loading := loading s; forecastData := forecastData s; summary := summary s;
     transactionSummary_cell := v; requested := requested s;
     console := console s; alerts := alerts s |}.

Definition note_request (u : string) (s : state) : state :=
  {| loading := loading s; forecastData := forecastData s; summary := summary s;
     transactionSummary_cell := transactionSummary_cell s;
     requested := requested s ++ [u];
     console := console s; alerts := alerts s |}.

Definition note_error (label : string) (e : error) (s : state) : state :=
  {| loading := loading s; forecastData := forecastData s; summary := summary s;
     transactionSummary_cell := transactionSummary_cell s; requested := requested s;
     console := console s ++ [(label, e)]; alerts := alerts s |}.

Definition alert (text : string) (s : state) : state :=
  {| loading := loading s; forecastData := forecastData s; summary := summary s;
     transactionSummary_cell := transactionSummary_cell s; requested := requested s;
     console := console s; alerts := alerts s ++ [text] |}.

(** A service call: the request leaves, then the promise settles. *)
Definition call {A} (u : string) (p : promise A) : action state A :=
  modify (note_request u) ;; await p.

(** [loadDashboardData], given the bodies the two requests settle with. The
    forecast body is [None] when it is [null] or [undefined], so that
    reading [forecastResponse.data.forecasts] throws; the summary body is
    stored unread. *)
Definition loadDashboardData (latest : promise (option forecast_body))
    (summ : promise value) : action state unit :=
  try_finally
    (try_catch
       (modify (setLoading true) ;;
        let! forecastResponse := call "/api/forecast/latest" latest in
        let! data := checked forecastResponse in
        modify (setForecastData (default [] (forecasts data))) ;;
        modify (setSummary (default ∅ (forecast_summary data))) ;;
        let! transactionResponse := call "/api/transactions/summary" summ in
        modify (setTransactionSummary transactionResponse))
       (fun error => modify (note_error "Failed to load dashboard data:" error)))
    (modify (setLoading false)).

(** What [loadDashboardData] leaves behind when it stops at the forecast:
    nothing stored, the summary not requested, the error on the console. *)
Definition stopped_at_forecast (e : error) (s s' : state) : Prop :=
  forecastData s' = forecastData s
  /\ summary s' = summary s
  /\ transactionSummary_cell s' = transactionSummary_cell s
  /\ requested s' = requested s ++ ["/api/forecast/latest"]
  /\ console s' = console s ++ [("Failed to load dashboard data:", e)].

(** [generateNewForecast], given how the generation and the two reloading
    requests settle. *)
Definition generateNewForecast (generated : promise unit)
    (latest : promise (option forecast_body)) (summ : promise value)
  : action state unit :=
  try_catch
    (modify (setLoading true) ;;
     call "/api/forecast" generated ;;
     loadDashboardData latest summ)
    (fun error =>
       modify (note_error "Failed to generate forecast:" error) ;;
       modify (alert "Failed to generate forecast. Please try again.")).

(** The trends handed to the four cards. *)
Definition balance_trend (s : state) : value :=
  VString (if gt (currentBalance (transactionSummary s)) (VNumber 0%float)
           then "positive" else "negative").

Definition projection_trend (s : state) : value :=
  VString (if gt (projectedBalance (forecastData s) (transactionSummary s))
                 (currentBalance (transactionSummary s))
           then "positive" else "negative").

Definition runway_trend (s : state) : value :=
  VString (if gt (cashRunwayDays (summary s)) (VNumber 60%float) then "positive"
           else if gt (cashRunwayDays (summary s)) (VNumber 30%float) then "neutral"
           else "negative").

(** The card row of the page. *)
Inductive row :=
  | Placeholders
  | Cards (drawn : list KPICard.card).

Section Cards.

(** [toLocaleString] and the text of a value in a template literal, which
    the model leaves open. *)
Variable toLocaleString : value -> string.
Variable ToString : value -> string.

(** The four [KPICard] elements; none is given a [change]. *)
Definition cards (s : state) : list KPICard.props :=
  [ {| KPICard.title := "Current Balance";
       KPICard.value_text := "$" +:+ toLocaleString (currentBalance (transactionSummary s));
       KPICard.icon := KPICard.BanknotesIcon;
       KPICard.trend := balance_trend s;
       KPICard.description := VString "Available cash";
       KPICard.change := VUndefined |};
    {| KPICard.title := "90-Day Projection";
       KPICard.value_text :=
         "$" +:+ toLocaleString (projectedBalance (forecastData s) (transactionSummary s));
       KPICard.icon := KPICard.TrendingUpIcon;
       KPICard.trend := projection_trend s;
       KPICard.description := VString "Forecasted balance";
       KPICard.change := VUndefined |};
    {| KPICard.title := "Cash Runway";
       KPICard.value_text := ToString (cashRunwayDays (summary s)) +:+ " days";
       KPICard.icon := KPICard.CalendarDaysIcon;
       KPICard.trend := runway_trend s;
       KPICard.description := VString "Until cash runs out";
       KPICard.change := VUndefined |};
    {| KPICard.title := "Monthly Burn Rate";
       KPICard.value_text := "$" +:+ toLocaleString (monthlyBurnRate (transactionSummary s));
       KPICard.icon := KPICard.TrendingDownIcon;
       KPICard.trend := VString "neutral";
       KPICard.description := VString "Average monthly expenses";
       KPICard.change := VUndefined |} ].

(** The card row: placeholders while loading, the four cards after. Before
    the cards are built the render reads [transactionSummary.net_cash_flow],
    which throws on a stored [null] or [undefined]: [None]. *)
Definition card_row (s : state) : option row :=
  if loading s then Some Placeholders
  else if readable s then Some (Cards (map KPICard.render (cards s)))
  else None.

End Cards.

End DashboardPage.

(** ** CashFlowChart.jsx *)

Module CashFlowChart.
Import JS Operators.

(** An element of [chartData]. *)
Record point := {
  date : value;
  balance : value;
  income : value;
  expenses : number;
  lowerBound : value;
  upperBound : value;
  formattedDate : string
}.

Inductive view :=
  | NoData
  | Chart (chartData : list point) (confidence_band : bool).

Section Chart.

(** [format(parseISO(d), 'MMM dd')], which throws on a date it cannot read. *)
Variable format_date : value -> option string.

Definition chart_point (item : obj) : option point :=
  match format_date (get item "date") with
  | Some text =>
      Some {| date := get item "date";
              balance := get item "predicted_cash_balance";
              income := JS.or (get item "predicted_income") (VNumber 0%float);
              expenses := Math_abs (JS.or (get item "predicted_expenses") (VNumber 0%float));
              lowerBound := get item "confidence_interval_lower";
              upperBound := get item "confidence_interval_upper";
              formattedDate := text |}
  | None => None
  end.

(** [data.map(...)]: the first date that cannot be formatted aborts it. *)
Fixpoint chartData (data : list obj) : option (list point) :=
  match data with
  | [] => Some []
  | item :: rest =>
      match chart_point item with
      | Some p =>
          match chartData rest with
          | Some ps => Some (p :: ps)
          | None => None
          end
      | None => None
      end
  end.

(** [d.lowerBound !== undefined] *)
Definition has_lower_bound (p : point) : bool :=
  match lowerBound p with
  | VUndefined => false
  | _ => true
  end.

(** What the component draws; [None] when building [chartData] throws. *)
Definition render (data : list obj) : option view :=
  match chartData data with
  | Some [] => Some NoData
  | Some ps => Some (Chart ps (existsb has_lower_bound ps))
  | None => None
  end.

End Chart.

End CashFlowChart.

(** ** Transactions.jsx: loading, filtering, submitting and row styles *)

Module TransactionsPage.
Import JS Operators Api AuthContext Effect Effect.Notations.

(** The [filters] state: the text of the four filter controls. *)
Record filters := {
  search : string;
  type : string;
  startDate : string;
  endDate : string
}.

(** [...(s && { k: s })]: an empty text spreads nothing. *)
Definition when_set (s : string) (k : string) : obj :=
  if String.eqb s "" then ∅ else <[k := VString s]> ∅.

(** The [params] object of [loadTransactions]. *)
Definition query_params (f : filters) : obj :=
  <["limit" := VNumber 100%float]>
    (spread (spread (spread ∅ (when_set (type f) "transaction_type"))
                    (when_set (startDate f) "start_date"))
            (when_set (endDate f) "end_date")).

(** The requests the page makes. *)
Inductive request :=
  | getAll (params : obj)
  | send (c : Transactions.call)
  | syncXero.

(** The state of the page, with the requests made, the console and the
    alerts shown. *)
Record state := {
  transactions : list obj;
  loading : bool;
  syncing : bool;
  showAddModal : bool;
  newTransaction : Transactions.form;
  requested : list request;
  console : list (string * error);
  alerts : list string
}.

Definition setTransactions (d : list obj) (s : state) : state :=
  {| transactions := d; loading := loading s; syncing := syncing s;
     showAddModal := showAddModal s; newTransaction := newTransaction s;
     requested := requested s; console := console s; alerts := alerts s |}.

Definition setLoading (l : bool) (s : state) : state :=
  {| transactions := transactions s; loading := l; syncing := syncing s;
     showAddModal := showAddModal s; newTransaction := newTransaction s;
     requested := requested s; console := console s; alerts := alerts s |}.

Definition setSyncing (l : bool) (s : state) : state :=
  {| transactions := transactions s; loading := loading s; syncing := l;
     showAddModal := showAddModal s; newTransaction := newTransaction s;
     requested := requested s; console := console s; alerts := alerts s |}.

Definition setShowAddModal (l : bool) (s : state) : state :=
  {| transactions := transactions s; loading := loading s; syncing := syncing s;
     showAddModal := l; newTransaction := newTransaction s;
     requested := requested s; console := console s; alerts := alerts s |}.

Definition setNewTransaction (f : Transactions.form) (s : state) : state :=
  {| transactions := transactions s; loading := loading s; syncing := syncing s;
     showAddModal := showAddModal s; newTransaction := f;
     requested := requested s; console := console s; alerts := alerts s |}.

Definition note_request (r : request) (s : state) : state :=
  {| transactions := transactions s; loading := loading s; syncing := syncing s;
     showAddModal := showAddModal s; newTransaction := newTransaction s;
     requested := requested s ++ [r]; console := console s; alerts := alerts s |}.

Definition note_error (label : string) (e : error) (s : state) : state :=
  {| transactions := transactions s; loading := loading s; syncing := syncing s;
     showAddModal := showAddModal s; newTransaction := newTransaction s;
     requested := requested s; console := console s ++ [(label, e)];
     alerts := alerts s |}.

Definition alert (text : string) (s : state) : state :=
  {| transactions := transactions s; loading := loading s; syncing := syncing s;
     showAddModal := showAddModal s; newTransaction := newTransaction s;
     requested := requested s; console := console s; alerts := alerts s ++ [text] |}.

(** A service call: the request leaves, then the promise settles. *)
Definition call {A} (r : request) (p : promise A) : action state A :=
  modify (note_request r) ;; await p.

(** The form as [useState] creates it and as a successful submission
    leaves it; [today] is the current date. *)
Definition blank_form (today : string) : Transactions.form :=
  {| Transactions.date := today; Transactions.description := "";
     Transactions.amount := ""; Transactions.type := "income";
     Transactions.category := ""; Transactions.account_name := "";
     Transactions.contact_name := "" |}.

Section Page.

(** [String.prototype.toLowerCase] and the text [alert] shows for a value,
    which the model leaves open. *)
Variable toLowerCase : string -> string.
Variable ToString : value -> string.

(** The callback of the search filter:
    [t.description.toLowerCase().includes(q) ||
     (t.contact_name && t.contact_name.toLowerCase().includes(q))]
    with [q] the search text in lower case. Calling [toLowerCase] on what
    is not a string is a [TypeError], here [None]. *)
Definition matches (needle : string) (t : obj) : option bool :=
  match get t "description" with
  | VString d =>
      if includes (toLowerCase d) (toLowerCase needle) then Some true
      else
        match get t "contact_name" with
        | VString c =>
            if String.eqb c "" then Some false
            else Some (includes (toLowerCase c) (toLowerCase needle))
        | v => if ToBoolean v then None else Some false
        end
  | _ => None
  end.

(** [data.filter(...)]: the first row on which the callback throws aborts
    the filter. *)
Fixpoint search_filter (needle : string) (data : list obj) : option (list obj) :=
  match data with
  | [] => Some []
  | t :: rest =>
      match matches needle t with
      | Some keep =>
          match search_filter needle rest with
          | Some kept => Some (if keep then t :: kept else kept)
          | None => None
          end
      | None => None
      end
  end.

(** [loadTransactions], given the rows the server answers with. *)
Definition loadTransactions (f : filters) (rows : promise (list obj)) : action state unit :=
  try_finally
    (try_catch
       (modify (setLoading true) ;;
        let! response := call (getAll (query_params f)) rows in
        let! data :=
          (if String.eqb (search f) "" then ret response
           else checked (search_filter (search f) response)) in
        modify (setTransactions data))
       (fun error => modify (note_error "Failed to load transactions:" error)))
    (modify (setLoading false)).

(** [syncWithXero], given the body the server answers the sync with. *)
Definition syncWithXero (f : filters) (synced : promise value)
    (rows : promise (list obj)) : action state unit :=
  try_finally
    (try_catch
       (modify (setSyncing true) ;;
        let! response := call syncXero synced in
        let! message := checked (member response "message") in
        modify (alert (ToString message)) ;;
        loadTransactions f rows)
       (fun error =>
          modify (note_error "Sync failed:" error) ;;
          modify (alert "Failed to sync with Xero. Please try again.")))
    (modify (setSyncing false)).

(** The whole of [addTransaction]: the data is built, sent, and on success
    the modal closes, the form is blanked and the list reloaded; a failure
    on the way is logged and announced. *)
Definition submit (toISOString : string -> option string) (today : string)
    (f : filters) (created : promise unit) (rows : promise (list obj))
  : action state unit :=
  try_catch
    (let! form := gets newTransaction in
     match Transactions.addTransaction toISOString form with
     | c :: _ =>
         call (send c) created ;;
         modify (setShowAddModal false) ;;
         modify (setNewTransaction (blank_form today)) ;;
         loadTransactions f rows
     | [] =>
         throw {| message := "RangeError: Invalid time value";
                  error_response := None |}
     end)
    (fun error =>
       modify (note_error "Failed to add transaction:" error) ;;
       modify (alert "Failed to add transaction. Please try again.")).

End Page.

(** The colour of the amount:
    [transaction.amount >= 0 ? 'text-success-600' : 'text-danger-600'] *)
Definition amount_class (t : obj) : string :=
  if ge (get t "amount") (VNumber 0%float)
  then "text-success-600" else "text-danger-600".

(** The colours of the type badge, by [transaction.type === 'income']. *)
Definition type_badge (t : obj) : string :=
  match get t "type" with
  | VString "income" => "bg-success-100 text-success-800"
  | _ => "bg-danger-100 text-danger-800"
  end.

(** [transaction.category || 'Other'] *)
Definition category_label (t : obj) : value :=
  JS.or (get t "category") (VString "Other").

End TransactionsPage.

(** ** The settings page *)

Module Settings.
Import JS Operators Api AuthContext Effect Effect.Notations AuthProvider.

(** The state of the page, together with the provider's world its actions
    run in. *)
Record state := {
  xeroStatus : value;
  loading : bool;
  connecting : bool;
  alerts : list string;
  provider : world
}.

(** The object literal [xeroStatus] starts with and is reset to. *)
Definition not_connected : value :=
  VObject (<["is_connected" := VBool false]>
          (<["is_token_valid" := VBool false]>
          (<["tenant_id" := VNull]>
          (<["last_sync_at" := VNull]> ∅)))).

Definition setXeroStatus (v : value) (s : state) : state :=
  {| xeroStatus := v; loading := loading s; connecting := connecting s;
     alerts := alerts s; provider := provider s |}.

Definition setLoading (l : bool) (s : state) : state :=
  {| xeroStatus := xeroStatus s; loading := l; connecting := connecting s;
     alerts := alerts s; provider := provider s |}.

Definition setConnecting (l : bool) (s : state) : state :=
  {| xeroStatus := xeroStatus s; loading := loading s; connecting := l;
     alerts := alerts s; provider := provider s |}.

Definition alert (text : string) (s : state) : state :=
  {| xeroStatus := xeroStatus s; loading := loading s; connecting := connecting s;
     alerts := alerts s ++ [text]; provider := provider s |}.

(** An action of the provider, run from the page. *)
Definition in_provider {A} (m : action world A) : action state A :=
  fun s =>
    match m (provider s) with
    | (c, w) =>
        (c, {| xeroStatus := xeroStatus s; loading := loading s;
               connecting := connecting s; alerts := alerts s; provider := w |})
    end.

(** [getXeroStatus] of the provider: the request goes out, the reply passes
    the response interceptor, and the function of [AuthContext] handles how
    it settled. *)
Definition xero_status (rep : reply) : action world value :=
  fun w =>
    let '(b, p) := settle rep (browser_state w) in
    let w1 := record_request {| method := "GET"; url := "/auth/xero/status";
                                body := VUndefined |}
                (with_browser (fun _ => b) w) in
    match getXeroStatus p (console_log w1) with
    | (c, l) => (c, with_console (fun _ => l) w1)
    end.

(** [loadXeroStatus] *)
Definition loadXeroStatus (rep : reply) : action state unit :=
  try_finally
    (try_catch
       (modify (setLoading true) ;;
        let! status := in_provider (xero_status rep) in
        modify (setXeroStatus status))
       (fun error =>
          in_provider (log_error "Failed to load Xero status:" error)))
    (modify (setLoading false)).

(** [handleDisconnectXero], given the answer to the confirmation dialog. *)
Definition handleDisconnectXero (confirmed : bool) (rep : reply) : action state unit :=
  if negb confirmed then ret tt
  else
    try_catch
      (let! result := in_provider (disconnectXero rep) in
       let! success := checked (member result "success") in
       if ToBoolean success then
         modify (setXeroStatus not_connected) ;;
         modify (alert "Successfully disconnected from Xero")
       else modify (alert "Failed to disconnect from Xero"))
      (fun error =>
         in_provider (log_error "Failed to disconnect from Xero:" error) ;;
         modify (alert "Failed to disconnect from Xero. Please try again.")).

Section Connect.

Variable number_to_string : number -> string.

(** [handleConnectXero] *)
Definition handleConnectXero (rep : reply) : action state unit :=
  try_finally
    (try_catch
       (modify (setConnecting true) ;;
        in_provider (connectXero number_to_string rep))
       (fun error =>
          in_provider (log_error "Failed to connect to Xero:" error) ;;
          modify (alert "Failed to connect to Xero. Please try again.")))
    (modify (setConnecting false)).

End Connect.

Inductive indicator := ConnectedActive | ConnectedExpired | NotConnected.

(** [StatusIndicator({ isConnected, isValid })] *)
Definition StatusIndicator (isConnected isValid : value) : indicator :=
  if ToBoolean isConnected && ToBoolean isValid then ConnectedActive
  else if ToBoolean isConnected && negb (ToBoolean isValid) then ConnectedExpired
  else NotConnected.

Inductive button := Connect | Reconnect | Disconnect.

Inductive page :=
  | Skeleton
  | Panel (status : indicator) (buttons : list button).

(** The integration panel; [None] when reading [xeroStatus] throws. *)
Definition render (s : state) : option page :=
  if loading s then Some Skeleton
  else
    match member (xeroStatus s) "is_connected",
          member (xeroStatus s) "is_token_valid" with
    | Some c, Some v =>
        Some (Panel (StatusIndicator c v)
                    (if JS.not c then [Connect] else [Reconnect; Disconnect]))
    | _, _ => None
    end.

End Settings.

(** * Properties *)

(** ** Facts about objects and binary64 arithmetic *)

Module JSFacts.
Import JS.

(** Reading a field after an update, and after a spread. *)
Lemma get_insert (o : obj) (k k' : string) (v : value) :
  get (<[k := v]> o) k' = if decide (k = k') then v else get o k'.
Proof.
  unfold get. rewrite lookup_insert. now destruct (decide (k = k')).
Qed.

Lemma get_spread (a b : obj) (k : string) :
  get (spread a b) k = match b !! k with Some v => v | None => get a k end.
Proof.
  unfold get, spread. rewrite lookup_union.
  destruct (b !! k), (a !! k); reflexivity.
Qed.


Lemma neq_of_eqb (x y : number) :
  (x =? y)%float = false -> (x =? x)%float = true -> x <> y.
Proof. intros Hxy Hxx ->. congruence. Qed.

Lemma VNumber_inj (x y : number) : VNumber x = VNumber y -> x = y.
Proof. intros H. change (ToNumber (VNumber x) = ToNumber (VNumber y)). now rewrite H. Qed.

Lemma VNumber_neq (x y : number) :
  (x =? y)%float = false -> (x =? x)%float = true -> VNumber x <> VNumber y.
Proof. intros Hxy Hxx H. exact (neq_of_eqb x y Hxy Hxx (VNumber_inj x y H)). Qed.

(** The sign given to the rounding function only labels its result. *)
Lemma SFabs_round_aux s m e l :
  SFabs (binary_round_aux prec emax s m e l) = binary_round_aux prec emax false m e l.
Proof.
  unfold binary_round_aux.
  destruct (shr_fexp prec emax m e l) as [mrs' e'].
  destruct (shr_fexp prec emax _ e' loc_Exact) as [mrs'' e''].
  destruct (shr_m mrs''); try reflexivity.
  destruct (e'' <=? emax - prec); reflexivity.
Qed.

Lemma SFabs_div x y :
  SFabs (SFdiv prec emax x y) = SFdiv prec emax (SFabs x) (SFabs y).
Proof.
  destruct x as [sx|sx| |sx mx ex], y as [sy|sy| |sy my ey]; try reflexivity.
  simpl.
  destruct (SFdiv_core_binary prec emax (Z.pos mx) ex (Z.pos my) ey) as [[mz ez] lz].
  apply SFabs_round_aux.
Qed.

(** [|x / y| = |x| / |y|], exactly. *)
Lemma abs_div (x y : number) : abs (x / y) = (abs x / abs y)%float.
Proof.
  apply Prim2SF_inj.
  rewrite abs_spec, !div_spec, !abs_spec. apply SFabs_div.
Qed.

Lemma iter_shr_1_exact (k : nat) (m : positive) :
  Nat.iter k shr_1
    {| shr_m := Z.pos (Nat.iter k xO m); shr_r := false; shr_s := false |}
  = {| shr_m := Z.pos m; shr_r := false; shr_s := false |}.
Proof.
  induction k as [|k IH]; [reflexivity|].
  rewrite Nat.iter_succ_r. simpl. apply IH.
Qed.

Lemma mul_pow2 (k : nat) (m : positive) :
  (m * Nat.iter k xO 1 = Nat.iter k xO m)%positive.
Proof.
  rewrite Pos.mul_comm.
  induction k as [|k IH]; [reflexivity|].
  change (Nat.iter (S k) xO ?x) with (xO (Nat.iter k xO x)).
  rewrite <- IH. reflexivity.
Qed.

Lemma digits2_pow2 (k : nat) (m : positive) :
  Z.pos (digits2_pos (Nat.iter k xO m)) = Z.pos (digits2_pos m) + Z.of_nat k.
Proof.
  induction k as [|k IH]; [simpl; lia|].
  change (Nat.iter (S k) xO m) with (xO (Nat.iter k xO m)).
  simpl digits2_pos. rewrite Pos2Z.inj_succ, IH. lia.
Qed.

(** A canonical mantissa scaled by [2^52] under an exponent lowered by 52 is
    an exact product: rounding gives the mantissa back. *)
Lemma round_scaled s m e :
  bounded prec emax m e = true ->
  binary_round_aux prec emax s (Z.pos (m * 4503599627370496)) (e + -52) loc_Exact
  = S754_finite s m e.
Proof.
  intros Hb. unfold bounded, canonical_mantissa in Hb.
  apply andb_prop in Hb as [Hc He]. apply Z.eqb_eq in Hc.
  change 4503599627370496%positive with (Nat.iter 52 xO 1%positive).
  rewrite mul_pow2.
  unfold binary_round_aux, shr_fexp at 1.
  unfold Zdigits2. rewrite digits2_pow2.
  replace (Z.pos (digits2_pos m) + Z.of_nat 52 + (e + -52))
    with (Z.pos (digits2_pos m) + e) by lia.
  rewrite Hc.
  replace (e - (e + -52)) with 52 by lia.
  unfold shr.
  change (SpecFloat.iter_pos shr_1 52 ?x) with (Nat.iter 52 shr_1 x).
  unfold shr_record_of_loc. rewrite iter_shr_1_exact.
  cbn [shr_m loc_of_shr_record round_nearest_even].
  unfold shr_fexp, Zdigits2.
  replace (e + -52 + 52) with e by lia.
  rewrite Hc, Z.sub_diag. cbn [shr shr_record_of_loc shr_m].
  now rewrite He.
Qed.

Lemma SFmul_unit_r s x :
  valid_binary x = true ->
  SFmul prec emax x (S754_finite s 4503599627370496 (-52))
  = if s then SFopp x else x.
Proof.
  destruct x as [sx|sx| |sx mx ex]; intros Hv.
  - destruct sx, s; reflexivity.
  - destruct sx, s; reflexivity.
  - destruct s; reflexivity.
  - cbn [SFmul]. rewrite round_scaled by exact Hv.
    destruct sx, s; reflexivity.
Qed.

(** [x * 1] is [x]. *)
Lemma mul_one (x : number) : (x * 1)%float = x.
Proof.
  apply Prim2SF_inj. rewrite mul_spec.
  change (Prim2SF 1) with (S754_finite false 4503599627370496 (-52)).
  unfold SF64mul. now rewrite SFmul_unit_r by apply Prim2SF_valid.
Qed.

(** [x * -1] is [-x]. *)
Lemma mul_minus_one (x : number) : (x * -1)%float = (- x)%float.
Proof.
  apply Prim2SF_inj. rewrite mul_spec, opp_spec.
  change (Prim2SF (-1)) with (S754_finite true 4503599627370496 (-52)).
  unfold SF64mul. now rewrite SFmul_unit_r by apply Prim2SF_valid.
Qed.

Lemma SFltb_opp_zero x :
  SFltb (S754_zero false) x = true -> SFltb (SFopp x) (S754_zero false) = true.
Proof.
  destruct x as [s|[|]| |[|] m e]; simpl; intros H; try discriminate H; reflexivity.
Qed.

(** The opposite of a positive number is negative. *)
Lemma opp_negative (x : number) :
  (0 <? x)%float = true -> (- x <? 0)%float = true.
Proof.
  rewrite !ltb_spec, opp_spec.
  change (Prim2SF 0) with (S754_zero false). apply SFltb_opp_zero.
Qed.

(** *** Division by 3 does not overflow *)
















(** *** The conversions on sample inputs *)

Example parseFloat_samples :
  map parseFloat ["12.50"; "  -500"; ""; "1e3x"; ".5"; "-.5e1"; "abc"; "Infinity"; "0x10"]
  = [12.5; -500; nan; 1000; 0.5; -5; nan; infinity; 0]%float.
Proof. vm_compute. reflexivity. Qed.

Example ToNumber_samples :
  map ToNumber [VUndefined; VNull; VBool true; VString ""; VString " 42 ";
                VString "0x1F"; VString "12px"; VString "-1.5e2"]
  = [nan; 0; 1; 0; 42; 31; nan; -150]%float.
Proof. vm_compute. reflexivity. Qed.

Example ToBoolean_samples :
  map ToBoolean [VUndefined; VNull; VNumber 0%float; VNumber (-0)%float; VNumber nan;
                 VString ""; VNumber 8000%float; VString "0"; VObject ∅]
  = [false; false; false; false; false; false; true; true; true].
Proof. vm_compute. reflexivity. Qed.

(** A truthy number is neither zero nor [NaN]. *)
Lemma truthy_number (n : number) :
  ToBoolean (VNumber n) = true -> is_zero n = false /\ is_nan n = false.
Proof.
  simpl. destruct (is_zero n), (is_nan n); simpl; intros; split; congruence.
Qed.

(** [a || b] on numbers is a number. *)
Lemma or_number (a b : number) :
  JS.or (VNumber a) (VNumber b) = VNumber (if is_zero a || is_nan a then b else a).
Proof.
  unfold JS.or. simpl. now destruct (is_zero a || is_nan a).
Qed.

End JSFacts.

(** ** The dashboard KPIs *)

Module DashboardFacts.
Import JS Dashboard JSFacts.

(** The quotient the dashboard computes is the specified average taken over
    exactly three months. *)
Lemma quotient_is_three_month_average (x : number) :
  abs (x / 3) = spec_monthly_burn_rate x 3.
Proof.
  unfold spec_monthly_burn_rate.
  change (number_of_Z (Z.max 1 3)) with (abs 3%float).
  apply abs_div.
Qed.

(** Before the summary is loaded the state is [{}] and the card shows the
    default; 900 of expenses show as 300. *)
Example monthlyBurnRate_samples :
  monthlyBurnRate ∅ = VNumber 8000%float
  /\ monthlyBurnRate {[ "total_expenses" := VNumber (-900)%float ]} = VNumber 300%float
  /\ monthlyBurnRate {[ "total_expenses" := VString "-900" ]} = VNumber 300%float.
Proof. repeat split; vm_compute; reflexivity. Qed.

(** C1, as the code has it: the monthly burn rate on the dashboard is
    [|total_expenses| / 3], the specified average with the month count fixed
    at 3 whatever span the history has, whenever that is a non-zero number;
    when it is zero or not a number (no expenses, or no summary loaded) the
    card shows 8000. *)
Theorem monthlyBurnRate_three_month_average (transactionSummary : obj) :
  let q := spec_monthly_burn_rate
             (ToNumber (get transactionSummary "total_expenses")) 3 in
  monthlyBurnRate transactionSummary
  = VNumber (if is_zero q || is_nan q then 8000%float else q).
Proof.
  intros q. unfold monthlyBurnRate, Math_abs, JS.div.
  cbn [ToNumber]. rewrite quotient_is_three_month_average.
  apply or_number.
Qed.

(** C1 does not hold as stated: with 9000 of expenses over a history of one
    month the specified rate is 9000 and the card shows 3000; with no
    expenses over three months the specified rate is 0 and the card shows
    8000. *)
Lemma monthlyBurnRate_counterexample :
  let one_month : obj := {[ "total_expenses" := VNumber (-9000)%float ]} in
  let no_expenses : obj := {[ "total_expenses" := VNumber 0%float ]} in
  (monthlyBurnRate one_month = VNumber 3000%float
   /\ spec_monthly_burn_rate (ToNumber (get one_month "total_expenses")) 1 = 9000%float
   /\ monthlyBurnRate one_month
      <> VNumber (spec_monthly_burn_rate (ToNumber (get one_month "total_expenses")) 1))
  /\ (monthlyBurnRate no_expenses = VNumber 8000%float
      /\ spec_monthly_burn_rate (ToNumber (get no_expenses "total_expenses")) 3 = 0%float
      /\ monthlyBurnRate no_expenses
         <> VNumber (spec_monthly_burn_rate (ToNumber (get no_expenses "total_expenses")) 3)).
Proof.
  repeat split; try (vm_compute; reflexivity).
  - vm_compute. now apply VNumber_neq.
  - vm_compute. now apply VNumber_neq.
Qed.

End DashboardFacts.

(** ** The forecast contract on short histories *)

Module EngineFacts.
Import JS Engine.

Lemma flat_projection_length (b : number) (c : bool) (d0 : Z) (n : nat) :
  length (flat_projection b c d0 n) = n.
Proof. unfold flat_projection. now rewrite length_map, length_seq. Qed.

(** Every point of a flat projection stands at the given balance, with the
    confidence bounds, when present, on the estimate itself. *)
Lemma flat_projection_flat (b : number) (c : bool) (d0 : Z) (n : nat) :
  Forall (fun p =>
            predicted_balance p = b
            /\ confidence_lower p = (if c then Some (predicted_balance p) else None)
            /\ confidence_upper p = (if c then Some (predicted_balance p) else None))
         (flat_projection b c d0 n).
Proof.
  unfold flat_projection. apply List.Forall_map.
  induction (seq 1 n) as [|i l IH]; constructor; [|exact IH].
  now destruct c.
Qed.

(** The dates of a flat projection are the [n] days after [d0], in order. *)
Lemma flat_projection_dates (b : number) (c : bool) (d0 : Z) (n : nat) :
  map forecast_date (flat_projection b c d0 n)
  = map (fun i => d0 + Z.of_nat i) (seq 1 n).
Proof.
  unfold flat_projection. rewrite List.map_map. reflexivity.
Qed.

(** C2: on a history of fewer than 2 points and a valid [days_ahead],
    [forecast] does not fail: it returns exactly [days_ahead] points, each
    predicting the last known balance with confidence bounds equal to the
    estimate, and raises the low-data flag. *)
Theorem forecast_short_history_is_flat
    (statistical_fit : list DailyPoint -> nat -> bool -> option (list ForecastPoint))
    (linear_fit : list DailyPoint -> nat -> bool -> list ForecastPoint)
    (starting_balance : number) (origin : Z)
    (history : list DailyPoint) (days_ahead : Z)
    (model : Strategy) (with_confidence : bool) :
  (length history < 2)%nat ->
  0 < days_ahead ->
  exists ps,
    forecast statistical_fit linear_fit starting_balance origin
             history days_ahead model with_confidence
    = inr {| points := ps; low_data := true |}
    /\ Z.of_nat (length ps) = days_ahead
    /\ Forall (fun p =>
                 predicted_balance p = last_known_balance starting_balance history
                 /\ confidence_lower p
                    = (if with_confidence then Some (predicted_balance p) else None)
                 /\ confidence_upper p
                    = (if with_confidence then Some (predicted_balance p) else None))
              ps.
Proof.
  intros Hshort Hdays. unfold forecast.
  destruct (Z.leb_spec days_ahead 0) as [Hle|_]; [lia|].
  destruct (Nat.ltb_spec (length history) 2) as [_|Hge]; [|lia].
  eexists. split; [reflexivity|]. split.
  - rewrite flat_projection_length. lia.
  - apply flat_projection_flat.
Qed.

(** A one-point history, three days ahead. *)
Lemma forecast_short_history_witness :
  let history := [ {| date := 10; net_amount := 1000%float;
                      cumulative_balance := 1000%float |} ] in
  exists ps,
    forecast (fun _ _ _ => None) (fun _ _ _ => []) 0%float 0
             history 3 primary true
    = inr {| points := ps; low_data := true |}
    /\ Z.of_nat (length ps) = 3
    /\ Forall (fun p =>
                 predicted_balance p = last_known_balance 0%float history
                 /\ confidence_lower p = Some (predicted_balance p)
                 /\ confidence_upper p = Some (predicted_balance p))
              ps.
Proof.
  intros history.
  apply (forecast_short_history_is_flat
           (fun _ _ _ => None) (fun _ _ _ => []) 0%float 0 history 3 primary true);
    [simpl; lia | lia].
Defined.

End EngineFacts.

(** ** Ratios shown on the dashboard *)

Module RatioFacts.
Import JS Operators Dashboard BaselineComparison JSFacts.






End RatioFacts.

(** ** The scenario simulator: what its parameter state can become *)

Module ScenarioSimulatorFacts.
Import JS ScenarioSimulator JSFacts.

(** An input event stores its value in its field and sends nothing. *)
Lemma handle_assignment (st : state) (e : event) (k : string) (v : value) :
  assignment e = Some (k, v) ->
  handle st e = (setParameters st (<[k := v]> (parameters st)), []).
Proof.
  destruct e; simpl; intros H; try discriminate;
    apply (f_equal (fun o => default (k, v) o)) in H; simpl in H;
    apply (f_equal fst) in H as Hk; apply (f_equal snd) in H as Hv;
    simpl in Hk, Hv; subst; reflexivity.
Qed.

(** Requests carry the parameters of the state they are sent from. *)
Lemma handle_sends (st : state) (e : event) (body : obj) :
  body ∈ snd (handle st e) -> body = parameters st.
Proof.
  destruct e as [ps|i|v|v|v|v| |[d|]|]; simpl;
    try (intros H; now apply not_elem_of_nil in H).
  - destruct (take 4 (presets st) !! i); simpl; intros H;
      now apply not_elem_of_nil in H.
  - destruct (loading st); simpl; intros H.
    + now apply not_elem_of_nil in H.
    + now apply list_elem_of_singleton in H.
Qed.

Section FieldInvariant.

Variable k : string.
Variable P : value -> bool.
Hypothesis default_ok : P (get default_parameters k) = true.

(** One event keeps the field within [P] when the presets it loads and the
    value it assigns do; a reset restores the default, which satisfies [P]. *)
Lemma handle_field_ok (st : state) (e : event) :
  presets_keep k P e ->
  (forall v, assignment e = Some (k, v) -> P v = true) ->
  field_ok k P st -> field_ok k P (fst (handle st e)).
Proof.
  intros Hpre Hassign [Hpar Hps].
  destruct (assignment e) as [[k' v]|] eqn:Ha.
  - rewrite (handle_assignment st e k' v Ha). split; [|exact Hps].
    cbn [fst setParameters parameters]. rewrite get_insert.
    destruct (decide (k' = k)) as [->|_]; [now apply Hassign | exact Hpar].
  - destruct e as [ps|i|v|v|v|v| |[d|]|]; try discriminate Ha;
      simpl; try (split; assumption).
    + destruct (take 4 (presets st) !! i) as [p|] eqn:Hi; [|split; assumption].
      split; [|exact Hps]. cbn [fst applyPreset setParameters parameters].
      rewrite get_spread.
      destruct (preset_parameters p !! k) as [v|] eqn:Hv; [|exact Hpar].
      rewrite Forall_lookup in Hps. exact (Hps i p Hi v Hv).
    + destruct (loading st); split; assumption.
Qed.

Lemma run_field_ok (evs : list event) (st : state) :
  Forall (presets_keep k P) evs ->
  Forall (fun e => forall v, assignment e = Some (k, v) -> P v = true) evs ->
  field_ok k P st ->
  field_ok k P (fst (run st evs))
  /\ Forall (fun body => P (get body k) = true) (snd (run st evs)).
Proof.
  revert st. induction evs as [|e evs IH]; intros st Hpre Hassign Hst.
  - split; [exact Hst | constructor].
  - apply Forall_cons in Hpre as [Hpe Hpre].
    apply Forall_cons in Hassign as [Hae Hassign].
    pose proof (handle_field_ok st e Hpe Hae Hst) as Hnext.
    pose proof (handle_sends st e) as Hsent.
    simpl. destruct (handle st e) as [st1 out1].
    specialize (IH st1 Hpre Hassign Hnext).
    destruct (run st1 evs) as [st2 out2]. destruct IH as [IH1 IH2].
    split; [exact IH1|].
    apply Forall_app. split; [|exact IH2].
    apply Forall_forall. intros body Hin.
    rewrite (Hsent body Hin). exact (proj1 Hst).
Qed.

Lemma initial_field_ok : field_ok k P initial.
Proof. split; [exact default_ok | constructor]. Qed.

End FieldInvariant.

(** No input event assigns [days_ahead]. *)
Lemma assignment_not_days_ahead (e : event) (v : value) :
  assignment e <> Some ("days_ahead", v).
Proof. destruct e; simpl; intros H; discriminate H. Qed.

(** Every value a slider can report parses to a number from -50 to 100. *)
Lemma slider_value_in_range (v : string) :
  v ∈ slider_values ->
  number_in (-50) 100 (VNumber (parseFloat v)) = true.
Proof.
  intros Hv. apply list_elem_of_In in Hv. revert v Hv.
  apply forallb_forall. vm_compute. reflexivity.
Qed.

(** What a number input stores is non-negative when the text typed parses
    to a non-negative number or does not parse. *)
Lemma amount_or_zero_non_negative (n : number) :
  (0 <=? n)%float = true \/ is_nan n = true ->
  non_negative (JS.or (VNumber n) (VNumber 0%float)) = true.
Proof.
  intros Hn. rewrite or_number. simpl.
  destruct (is_zero n); [reflexivity|].
  destruct (is_nan n) eqn:Hnan; [reflexivity|].
  destruct Hn as [Hn|Hn]; [exact Hn | discriminate Hn].
Qed.

(** C5, as the code has it: every body posted to [/api/simulate] has a
    [days_ahead] that is a number above 0 and at most 365, provided the
    presets offered set [days_ahead], if at all, within that range. The
    component forwards what a preset supplies without checking it. *)
Theorem days_ahead_sent_in_range (evs : list event) :
  Forall (presets_keep "days_ahead" (positive_up_to 365)) evs ->
  Forall (fun body => positive_up_to 365 (get body "days_ahead") = true)
         (snd (run initial evs)).
Proof.
  intros Hpre.
  apply (run_field_ok "days_ahead" (positive_up_to 365) eq_refl evs initial Hpre).
  - apply Forall_forall. intros e _ v Ha.
    now apply assignment_not_days_ahead in Ha.
  - now apply initial_field_ok.
Qed.

(** A session that loads a 30-day preset, applies it and runs twice. *)
Lemma days_ahead_sent_witness :
  let month := {| name := VString "Next month"; description := VNull;
                  preset_parameters := {[ "days_ahead" := VNumber 30%float ]} |} in
  Forall (fun body => positive_up_to 365 (get body "days_ahead") = true)
         (snd (run initial [ClickRun; SimulationSettled None;
                            PresetsLoaded [month]; ClickPreset 0;
                            ChangeRevenue "10"; ClickRun])).
Proof.
  intros month. apply days_ahead_sent_in_range.
  repeat constructor.
  intros v Hv. vm_compute in Hv.
  apply (f_equal (default VNull)) in Hv. simpl in Hv. now subst v.
Defined.

(** C5 does not hold as stated: a preset that sets [days_ahead] to 730 is
    applied as it is, and the next request carries 730. *)
Lemma days_ahead_counterexample :
  let two_years := {| name := VString "Two-year outlook"; description := VNull;
                      preset_parameters := {[ "days_ahead" := VNumber 730%float ]} |} in
  let evs := [PresetsLoaded [two_years]; ClickPreset 0; ClickRun] in
  Forall deliverable evs
  /\ exists body, body ∈ snd (run initial evs)
                  /\ get body "days_ahead" = VNumber 730%float
                  /\ positive_up_to 365 (get body "days_ahead") = false.
Proof.
  split; [repeat constructor|].
  eexists. split; [vm_compute; constructor|].
  split; vm_compute; reflexivity.
Qed.

(** C6, as the code has it: after any sequence of events the two percentage
    parameters are numbers from -50 to 100, provided the presets offered set
    them, if at all, within that range. The sliders cannot leave the range;
    a preset is applied as it is. *)
Theorem percent_parameters_in_range (evs : list event) :
  Forall deliverable evs ->
  Forall (presets_keep "revenue_change_percent" (number_in (-50) 100)) evs ->
  Forall (presets_keep "expense_change_percent" (number_in (-50) 100)) evs ->
  let st := fst (run initial evs) in
  number_in (-50) 100 (get (parameters st) "revenue_change_percent") = true
  /\ number_in (-50) 100 (get (parameters st) "expense_change_percent") = true.
Proof.
  intros Hdom Hrev Hexp st. subst st. split.
  - refine (proj1 (proj1 (run_field_ok _ _ eq_refl evs initial Hrev _ _))).
    + eapply Forall_impl; [exact Hdom|]. intros e He v Ha.
      destruct e; try discriminate Ha; simpl in He, Ha.
      apply (f_equal (fun o => snd (default ("", VNull) o))) in Ha.
      simpl in Ha. subst v. now apply slider_value_in_range.
    + now apply initial_field_ok.
  - refine (proj1 (proj1 (run_field_ok _ _ eq_refl evs initial Hexp _ _))).
    + eapply Forall_impl; [exact Hdom|]. intros e He v Ha.
      destruct e; try discriminate Ha; simpl in He, Ha.
      apply (f_equal (fun o => snd (default ("", VNull) o))) in Ha.
      simpl in Ha. subst v. now apply slider_value_in_range.
    + now apply initial_field_ok.
Qed.

(** Sliders moved to both ends, a reset, and a preset within range. *)
Lemma percent_parameters_witness :
  let lean := {| name := VString "Cost cutting"; description := VNull;
                 preset_parameters := {[ "expense_change_percent" := VNumber (-20)%float ]} |} in
  let st := fst (run initial [ChangeRevenue "100"; ChangeExpense "-50"; ClickReset;
                              PresetsLoaded [lean]; ClickPreset 0;
                              ChangeRevenue "-50"]) in
  number_in (-50) 100 (get (parameters st) "revenue_change_percent") = true
  /\ number_in (-50) 100 (get (parameters st) "expense_change_percent") = true.
Proof.
  intros lean.
  apply percent_parameters_in_range.
  - repeat constructor; apply list_elem_of_In; vm_compute; tauto.
  - repeat constructor. intros v Hv. vm_compute in Hv. discriminate Hv.
  - repeat constructor. intros v Hv. vm_compute in Hv.
    apply (f_equal (default VNull)) in Hv. simpl in Hv. now subst v.
Defined.

(** C6 does not hold as stated: a preset that raises revenue by 150 percent
    is applied as it is. *)
Lemma percent_parameters_counterexample :
  let growth := {| name := VString "Rapid growth"; description := VNull;
                   preset_parameters := {[ "revenue_change_percent" := VNumber 150%float ]} |} in
  let evs := [PresetsLoaded [growth]; ClickPreset 0] in
  let st := fst (run initial evs) in
  Forall deliverable evs
  /\ get (parameters st) "revenue_change_percent" = VNumber 150%float
  /\ number_in (-50) 100 (get (parameters st) "revenue_change_percent") = false.
Proof.
  split; [repeat constructor|].
  split; vm_compute; reflexivity.
Qed.

(** C7, as the code has it: the two one-time amounts are non-negative
    numbers after any sequence of events in which every amount typed parses
    to a non-negative number or does not parse (it is then stored as 0), and
    the presets offered set them, if at all, to non-negative numbers. The
    inputs accept a negative amount and store it as typed. *)
Theorem one_time_amounts_non_negative (evs : list event) :
  Forall amount_entry_ok evs ->
  Forall (presets_keep "one_time_income" non_negative) evs ->
  Forall (presets_keep "one_time_expense" non_negative) evs ->
  let st := fst (run initial evs) in
  non_negative (get (parameters st) "one_time_income") = true
  /\ non_negative (get (parameters st) "one_time_expense") = true.
Proof.
  intros Hentry Hinc Hexp st. subst st. split.
  - refine (proj1 (proj1 (run_field_ok _ _ eq_refl evs initial Hinc _ _))).
    + eapply Forall_impl; [exact Hentry|]. intros e He v Ha.
      destruct e; try discriminate Ha; simpl in He, Ha.
      apply (f_equal (fun o => snd (default ("", VNull) o))) in Ha.
      simpl in Ha. subst v. now apply amount_or_zero_non_negative.
    + now apply initial_field_ok.
  - refine (proj1 (proj1 (run_field_ok _ _ eq_refl evs initial Hexp _ _))).
    + eapply Forall_impl; [exact Hentry|]. intros e He v Ha.
      destruct e; try discriminate Ha; simpl in He, Ha.
      apply (f_equal (fun o => snd (default ("", VNull) o))) in Ha.
      simpl in Ha. subst v. now apply amount_or_zero_non_negative.
    + now apply initial_field_ok.
Qed.

(** An amount typed, an entry cleared, and an amount that does not parse. *)
Lemma one_time_amounts_witness :
  let st := fst (run initial [ChangeOneTimeIncome "2500.50"; ChangeOneTimeExpense "";
                              ChangeOneTimeExpense "12e"; ChangeOneTimeIncome "abc"]) in
  non_negative (get (parameters st) "one_time_income") = true
  /\ non_negative (get (parameters st) "one_time_expense") = true.
Proof.
  apply one_time_amounts_non_negative.
  - repeat (apply List.Forall_cons;
            [first [ left; vm_compute; reflexivity
                   | right; vm_compute; reflexivity ] |]).
    apply List.Forall_nil.
  - repeat constructor.
  - repeat constructor.
Defined.

(** C7 does not hold as stated: typing -500 as the one-time income stores
    -500. *)
Lemma one_time_amounts_counterexample :
  let evs := [ChangeOneTimeIncome "-500"] in
  let st := fst (run initial evs) in
  Forall deliverable evs
  /\ get (parameters st) "one_time_income" = VNumber (-500)%float
  /\ non_negative (get (parameters st) "one_time_income") = false.
Proof.
  split; [repeat constructor|].
  split; vm_compute; reflexivity.
Qed.

End ScenarioSimulatorFacts.

(** ** The transactions page *)

Module TransactionsFacts.
Import JS Transactions JSFacts.

(** C8, as amended: the amount sent for a new transaction is the amount
    typed, [a], with the sign the selected type gives it: [-a] for an
    expense and [a] for income; the form does not check the sign of the
    entry, so it is for a positive entry that the amount sent is negative
    for an expense and positive for income. *)
Theorem submitted_amount_signed
    (toISOString : string -> option string)
    (newTransaction : form) (transactionData : obj) :
  create transactionData ∈ addTransaction toISOString newTransaction ->
  let a := parseFloat (amount newTransaction) in
  let sent := get transactionData "amount" in
  (type newTransaction = "expense" -> sent = VNumber (- a)%float)
  /\ (type newTransaction = "income" -> sent = VNumber a)
  /\ ((0 <? a)%float = true ->
      (type newTransaction = "expense" -> exists n, sent = VNumber n /\ (n <? 0)%float = true)
      /\ (type newTransaction = "income" -> exists n, sent = VNumber n /\ (0 <? n)%float = true)).
Proof.
  intros Hsent a sent. subst sent. unfold addTransaction in Hsent.
  destruct (toISOString (date newTransaction)) as [iso|];
    [|now apply not_elem_of_nil in Hsent].
  apply list_elem_of_singleton in Hsent.
  assert (Hget : get transactionData "amount" = VNumber (signed_amount newTransaction)).
  { apply (f_equal (fun c => match c with create d => d | delete _ => ∅ end)) in Hsent.
    rewrite Hsent, !get_insert. reflexivity. }
  rewrite Hget. unfold signed_amount, JS.mul. cbn [ToNumber]. fold a.
  assert (Hexp : type newTransaction = "expense" ->
                 VNumber (a * (if String.eqb (type newTransaction) "expense"
                               then -1 else 1))%float = VNumber (- a)%float).
  { intros ->. simpl. now rewrite mul_minus_one. }
  assert (Hinc : type newTransaction = "income" ->
                 VNumber (a * (if String.eqb (type newTransaction) "expense"
                               then -1 else 1))%float = VNumber a).
  { intros ->. simpl. now rewrite mul_one. }
  split; [exact Hexp|]. split; [exact Hinc|].
  intros Hpos. split; intros Ht.
  - exists (- a)%float. split; [now apply Hexp | now apply opp_negative].
  - exists a. split; [now apply Hinc | exact Hpos].
Qed.

(** An expense of 12.50 entered on a valid date. *)
Lemma submitted_amount_witness :
  let toISOString := fun d => Some (d +:+ "T00:00:00.000Z") in
  let newTransaction :=
    {| date := "2024-03-01"; description := "Office rent"; amount := "12.50";
       type := "expense"; category := ""; account_name := ""; contact_name := "" |} in
  let transactionData :=
    <["date" := VString "2024-03-01T00:00:00.000Z"]>
      (<["amount" := VNumber (-12.5)%float]> (form_fields newTransaction)) in
  get transactionData "amount" = VNumber (- parseFloat "12.50")%float.
Proof.
  intros toISOString newTransaction transactionData.
  apply (submitted_amount_signed toISOString newTransaction transactionData).
  - vm_compute. constructor.
  - reflexivity.
Defined.

(** C8: where the original fails. The form does not check the sign of the
    entry: an expense entered as -40 is sent as +40, a positive amount
    that does not encode income. *)
Lemma submitted_amount_counterexample :
  let toISOString := fun d => Some (d +:+ "T00:00:00.000Z") in
  let newTransaction :=
    {| date := "2024-03-01"; description := "Refund"; amount := "-40";
       type := "expense"; category := ""; account_name := ""; contact_name := "" |} in
  exists transactionData,
    addTransaction toISOString newTransaction = [create transactionData]
    /\ get transactionData "type" = VString "expense"
    /\ get transactionData "amount" = VNumber 40%float
    /\ (0 <? 40)%float = true.
Proof.
  intros toISOString newTransaction. eexists. split; [reflexivity|].
  repeat split; vm_compute; reflexivity.
Qed.
(** A synced transaction is drawn without actions, and clicking where its
    button would be sends nothing. *)
Example synced_row_has_no_delete :
  let synced_entry : obj :=
    <["id" := VNumber 8%float]>
      (<["xero_id" := VString "b1a2c3d4-0000-4000-8000-000000000001"]> ∅) in
  let st := {| transactions := [synced_entry]; loading := false |} in
  table_body st = [TransactionRow synced_entry []]
  /\ click st 0 0 true = [].
Proof. split; reflexivity. Qed.



End TransactionsFacts.

(** ** The response interceptor *)

Module ApiFacts.
Import JS Api.

(** C9: an error whose response has status 401 makes the interceptor remove
    the stored token and send the browser to [/login], and the request is
    still rejected with that error; any other error is rejected as it is and
    any fulfilled response is returned as it is, the browser untouched. The
    same holds for a response as axios settles it. *)
Theorem unauthorized_clears_token_and_redirects :
  (forall (e : error) (b : browser),
      error_status e = Some 401 ->
      exists b',
        on_response_error e b = (b', Rejected e)
        /\ localStorage b' = delete "token" (localStorage b)
        /\ localStorage b' !! "token" = None
        /\ location_href b' = "/login")
  /\ (forall (e : error) (b : browser),
         error_status e <> Some 401 ->
         on_response_error e b = (b, Rejected e))
  /\ (forall (r : response) (b : browser),
         on_response r b = (b, Fulfilled r))
  /\ (forall (r : response) (b : browser),
         status r = 401 ->
         exists b',
           receive r b = (b', Rejected (status_error r))
           /\ error_response (status_error r) = Some r
           /\ localStorage b' !! "token" = None
           /\ location_href b' = "/login")
  /\ (forall (r : response) (b : browser),
         status r <> 401 ->
         receive r b
         = (b, if validateStatus (status r) then Fulfilled r
               else Rejected (status_error r))).
Proof.
  split; [|split; [|split; [|split]]].
  - intros e b He. unfold on_response_error.
    destruct (decide (error_status e = Some 401)) as [_|Hne]; [|contradiction].
    eexists. split; [reflexivity|]. cbn [localStorage location_href].
    split; [reflexivity|]. split; [apply lookup_delete_eq | reflexivity].
  - intros e b He. unfold on_response_error.
    destruct (decide (error_status e = Some 401)) as [Heq|_]; [contradiction|].
    reflexivity.
  - reflexivity.
  - intros r b Hr. unfold receive. rewrite Hr. cbn [validateStatus Z.leb Z.ltb andb].
    change (validateStatus 401) with false. cbn iota.
    unfold on_response_error.
    destruct (decide (error_status (status_error r) = Some 401)) as [_|Hne].
    + eexists. split; [reflexivity|]. cbn [localStorage location_href].
      split; [reflexivity|]. split; [apply lookup_delete_eq | reflexivity].
    + exfalso. apply Hne. unfold error_status, status_error. simpl. now rewrite Hr.
  - intros r b Hr. unfold receive.
    destruct (validateStatus (status r)); [reflexivity|].
    unfold on_response_error.
    destruct (decide (error_status (status_error r) = Some 401)) as [Heq|_];
      [|reflexivity].
    exfalso. apply Hr. unfold error_status, status_error in Heq. simpl in Heq.
    now apply (f_equal (default 0)) in Heq.
Qed.

(** A signed-in browser receiving 401, 500 and 200. *)
Lemma unauthorized_witness :
  let b := {| localStorage := {[ "token" := "abc.def.ghi" ]};
              location_href := "/dashboard" |} in
  (exists b',
      receive {| status := 401; data := VNull |} b
      = (b', Rejected (status_error {| status := 401; data := VNull |}))
      /\ error_response (status_error {| status := 401; data := VNull |})
         = Some {| status := 401; data := VNull |}
      /\ localStorage b' !! "token" = None
      /\ location_href b' = "/login")
  /\ receive {| status := 500; data := VNull |} b
     = (b, Rejected (status_error {| status := 500; data := VNull |}))
  /\ receive {| status := 200; data := VNull |} b
     = (b, Fulfilled {| status := 200; data := VNull |}).
Proof.
  intros b.
  destruct unauthorized_clears_token_and_redirects as (_ & _ & _ & H401 & Hother).
  split; [|split].
  - apply H401. reflexivity.
  - apply (Hother {| status := 500; data := VNull |} b). discriminate.
  - apply (Hother {| status := 200; data := VNull |} b). discriminate.
Defined.

End ApiFacts.

(** ** The authentication context *)

Module AuthContextFacts.
Import JS Api AuthContext.

(** C10: [getXeroStatus] never throws. When the request is fulfilled it
    returns the body of the response; when the request is rejected it logs
    the error and returns [{ is_connected: false }]. *)
Theorem getXeroStatus_never_throws
    (reply : promise response) (console : list (string * error)) :
  exists (v : value) (console' : list (string * error)),
    getXeroStatus reply console = (Return v, console')
    /\ match reply with
       | Fulfilled r => v = data r /\ console' = console
       | Rejected e =>
           v = VObject {[ "is_connected" := VBool false ]}
           /\ console' = console ++ [("Failed to get Xero status:", e)]
       end.
Proof.
  destruct reply as [r|e].
  - exists (data r), console. split; [reflexivity | split; reflexivity].
  - eexists _, _. split; [reflexivity | split; reflexivity].
Qed.

End AuthContextFacts.
(** ** Comparisons *)

Module OperatorFacts.
Import JS Operators JSFacts.

Lemma SFeqb_refl_not_nan (x : spec_float) :
  SFeqb x x = match x with S754_nan => false | _ => true end.
Proof.
  destruct x as [s|s| |s m e]; try reflexivity.
  - now destruct s.
  - unfold SFeqb, SFcompare.
    destruct s; rewrite Z.compare_refl, Pos.compare_cont_refl; reflexivity.
Qed.

Lemma is_nan_spec (x : number) :
  is_nan x = match Prim2SF x with S754_nan => true | _ => false end.
Proof.
  unfold is_nan. rewrite FloatAxioms.eqb_spec, SFeqb_refl_not_nan.
  now destruct (Prim2SF x).
Qed.

(** No number is below [NaN], and [NaN] is below none. *)
Lemma ltb_nan (x y : number) :
  is_nan x || is_nan y = true -> (x <? y)%float = false.
Proof.
  rewrite !is_nan_spec, ltb_spec. unfold SFltb.
  destruct (Prim2SF x) as [sx|sx| |sx mx ex], (Prim2SF y) as [sy|sy| |sy my ey];
    simpl; intros H; try discriminate H; reflexivity.
Qed.

(** [a > b] on numbers is [b < a] in binary64. *)
Lemma gt_numbers (a b : number) : gt (VNumber a) (VNumber b) = (b <? a)%float.
Proof.
  unfold gt, less_than. cbn [ToPrimitive ToNumber].
  destruct (is_nan b || is_nan a) eqn:Hn.
  - now rewrite ltb_nan.
  - now destruct (b <? a)%float.
Qed.

Lemma string_ltb_irrefl (s : string) : string_ltb s s = false.
Proof.
  induction s as [|a s IH]; [reflexivity|]. simpl. now rewrite N.ltb_irrefl.
Qed.

Lemma ltb_irrefl (x : number) : (x <? x)%float = false.
Proof.
  rewrite ltb_spec. unfold SFltb, SFcompare.
  destruct (Prim2SF x) as [s|s| |s m e]; try reflexivity.
  - now destruct s.
  - destruct s; rewrite Z.compare_refl, Pos.compare_cont_refl; reflexivity.
Qed.

(** Nothing is greater than itself. *)
Lemma gt_irrefl (v : value) : gt v v = false.
Proof.
  unfold gt, less_than.
  destruct v as [| |b|n|s|o]; cbn [ToPrimitive ToNumber];
    try rewrite string_ltb_irrefl; try reflexivity.
  - destruct b; reflexivity.
  - destruct (is_nan n || is_nan n); [reflexivity|]. now rewrite ltb_irrefl.
Qed.

(** An absolute value is never negative, and is at least 0 unless [NaN]. *)
Lemma abs_not_negative (x : number) :
  (abs x <? 0)%float = false
  /\ (is_nan x = false -> (0 <=? abs x)%float = true).
Proof.
  rewrite ltb_spec, leb_spec, abs_spec, is_nan_spec.
  change (Prim2SF 0) with (S754_zero false).
  destruct (Prim2SF x) as [s|s| |s m e]; split; try reflexivity; discriminate.
Qed.

(** [a || b] is one of its operands, the first when it is truthy. *)
Lemma or_cases (a b : value) :
  (ToBoolean a = true /\ JS.or a b = a) \/ (ToBoolean a = false /\ JS.or a b = b).
Proof. unfold JS.or. destruct (ToBoolean a); auto. Qed.

End OperatorFacts.

(** ** The dashboard page *)

(** ** The provider's actions *)

Module AuthProviderFacts.
Import JS Operators Api AuthContext Effect AuthProvider JSFacts.

(** [a || b] is truthy as soon as [b] is. *)
Lemma or_truthy (a b : value) : ToBoolean b = true -> ToBoolean (JS.or a b) = true.
Proof. intros Hb. unfold JS.or. now destruct (ToBoolean a) eqn:Ha. Qed.

(** A fulfilled request left the browser as it was, and its status passed
    [validateStatus]. *)
Lemma settle_Fulfilled (rep : reply) (b b' : browser) (r : response) :
  settle rep b = (b', Fulfilled r) ->
  b' = b /\ rep = Responds r /\ validateStatus (status r) = true.
Proof.
  destruct rep as [r0|reason]; simpl.
  - unfold receive. destruct (validateStatus (status r0)) eqn:Hv.
    + unfold on_response. intros H.
      apply (f_equal fst) in H as Hb. apply (f_equal snd) in H as Hr. simpl in Hb, Hr.
      assert (r0 = r) by (apply (f_equal (fun p => match p with Fulfilled a => a | Rejected _ => r0 end)) in Hr; exact Hr).
      subst. auto.
    + unfold on_response_error. intros H. apply (f_equal snd) in H. discriminate H.
  - unfold on_response_error. intros H. apply (f_equal snd) in H. discriminate H.
Qed.

Lemma settle_2xx (r : response) (b : browser) :
  validateStatus (status r) = true -> settle (Responds r) b = (b, Fulfilled r).
Proof. intros Hv. simpl. unfold receive. now rewrite Hv. Qed.

(** A rejected request changed the browser only through the 401 branch of
    the interceptor. *)
Lemma settle_Rejected (rep : reply) (b b' : browser) (e : error) :
  settle rep b = (b', Rejected e) ->
  (error_status e = Some 401
   /\ b' = {| localStorage := base.delete "token" (localStorage b);
              location_href := "/login" |})
  \/ (error_status e <> Some 401 /\ b' = b).
Proof.
  assert (Hgen : forall e0, on_response_error e0 b = (b', Rejected e) ->
                 (error_status e = Some 401
                  /\ b' = {| localStorage := base.delete "token" (localStorage b);
                             location_href := "/login" |})
                 \/ (error_status e <> Some 401 /\ b' = b)).
  { intros e0. unfold on_response_error. intros H.
    apply (f_equal fst) in H as Hb. apply (f_equal snd) in H as He. simpl in Hb, He.
    assert (e0 = e) by (apply (f_equal (fun p => match p with Fulfilled _ => e0 | Rejected x => x end)) in He; exact He).
    subst e0. destruct (decide (error_status e = Some 401)); subst b'; auto. }
  destruct rep as [r0|reason]; simpl.
  - unfold receive. destruct (validateStatus (status r0)).
    + unfold on_response. intros H. apply (f_equal snd) in H. discriminate H.
    + apply Hgen.
  - apply Hgen.
Qed.

(** How a reply settles, by its kind. *)
Lemma settle_accepted (rep : reply) (b : browser) :
  accepted rep = true ->
  exists r, rep = Responds r /\ settle rep b = (b, Fulfilled r).
Proof.
  destruct rep as [r|reason]; simpl; [|discriminate].
  intros Hv. exists r. split; [reflexivity|]. unfold receive. now rewrite Hv.
Qed.

Lemma settle_refused (rep : reply) (b : browser) :
  accepted rep = false ->
  exists e,
    settle rep b
    = ((if unauthorized rep
        then {| localStorage := base.delete "token" (localStorage b);
                location_href := "/login" |}
        else b), Rejected e)
    /\ error_response e = match rep with Responds r => Some r | Fails _ => None end.
Proof.
  destruct rep as [r|reason]; simpl.
  - intros Hv. exists (status_error r). unfold receive. rewrite Hv.
    unfold on_response_error, error_status, status_error. cbn [error_response fmap option_fmap option_map].
    split; [|reflexivity].
    destruct (Z.eqb_spec (status r) 401) as [He|Hne].
    + rewrite He. reflexivity.
    + destruct (decide (Some (status r) = Some 401)) as [Heq|_]; [|reflexivity].
      exfalso. apply Hne. now apply (f_equal (default 0)) in Heq.
  - intros _. eexists. unfold on_response_error, error_status. cbn.
    split; reflexivity.
Qed.

Section Actions.

Variable number_to_string : number -> string.

Ltac run_action :=
  unfold AuthProvider.login, AuthProvider.checkAuth, AuthProvider.register,
    AuthProvider.connectXero, AuthProvider.disconnectXero, AuthProvider.logout,
    try_finally, try_catch, bind, send, checked, log_error, modify, gets, ret, throw.

(** X1: [login] never throws: it returns [{ success: true }] with the session
    authenticated, or [{ success: false, error }] with a truthy error text
    and the session as it was. *)
Theorem login_never_throws (email password : string) (signin me : reply) (w : world) :
  exists v w',
    login number_to_string email password signin me w = (Return v, w')
    /\ ((v = VObject (<["success" := VBool true]> ∅)
         /\ isAuthenticated (session_state w') = true)
        \/ (exists err,
               v = VObject (<["success" := VBool false]> (<["error" := err]> ∅))
               /\ ToBoolean err = true
               /\ session_state w' = session_state w)).
Proof.
  run_action.
  destruct (settle signin (browser_state w)) as [b1 [r1|e1]]; cbn.
  - destruct (member (data r1) "access_token") as [tok|]; cbn.
    + destruct (settle me _) as [b2 [r2|e2]]; cbn.
      * eexists _, _. split; [reflexivity|]. left. split; reflexivity.
      * eexists _, _. split; [reflexivity|]. right. eexists.
        split; [reflexivity|]. split; [first [now apply or_truthy | reflexivity] | reflexivity].
    + eexists _, _. split; [reflexivity|]. right. eexists.
      split; [reflexivity|]. split; [first [now apply or_truthy | reflexivity] | reflexivity].
  - eexists _, _. split; [reflexivity|]. right. eexists.
    split; [reflexivity|]. split; [first [now apply or_truthy | reflexivity] | reflexivity].
Qed.

(** X2: With the sign-in accepted, a token in the answer and the profile
    request accepted, [login] succeeds: the token is stored as text, the
    default [Authorization] header carries it, the session is authenticated
    with the profile as user, and the request interceptor will attach the
    stored token to every later request. *)
Theorem login_success
    (email password : string) (r m : response) (tok : value) (w : world) :
  validateStatus (status r) = true ->
  member (data r) "access_token" = Some tok ->
  validateStatus (status m) = true ->
  exists w',
    login number_to_string email password (Responds r) (Responds m) w
    = (Return (VObject (<["success" := VBool true]> ∅)), w')
    /\ localStorage (browser_state w') !! "token" = Some (ToString number_to_string tok)
    /\ common_headers w' !! "Authorization"
       = Some ("Bearer " +:+ ToString number_to_string tok)
    /\ session_state w'
       = {| user := data m; loading := loading (session_state w);
            isAuthenticated := true |}
    /\ map url (request_log w') = map url (request_log w) ++ ["/auth/login"; "/auth/me"]
    /\ (ToString number_to_string tok <> "" ->
        forall headers,
          on_request headers (browser_state w') !! "Authorization"
          = Some ("Bearer " +:+ ToString number_to_string tok)).
Proof.
  intros Hr Htok Hm. run_action. cbn [settle]. unfold receive.
  rewrite Hr. cbn. rewrite Htok. cbn. rewrite Hm. cbn.
  eexists. split; [reflexivity|]. cbn.
  split; [apply lookup_insert_eq|]. split; [apply lookup_insert_eq|].
  split; [reflexivity|].
  split; [rewrite <- app_assoc, List.map_app; reflexivity|].
  intros Hne headers. unfold on_request. cbn. rewrite lookup_insert_eq.
  destruct (String.eqb_spec (ToString number_to_string tok) "") as [He|_];
    [contradiction|].
  apply lookup_insert_eq.
Qed.

(** X3: When the sign-in is not accepted, [login] stops there: [/auth/me] is
    never requested, nothing is stored, the session is untouched, and a 401
    has sent the browser to [/login]. *)
Theorem login_refused_sign_in
    (email password : string) (signin me : reply) (w : world) :
  accepted signin = false ->
  exists err w',
    login number_to_string email password signin me w
    = (Return (VObject (<["success" := VBool false]> (<["error" := err]> ∅))), w')
    /\ map url (request_log w') = map url (request_log w) ++ ["/auth/login"]
    /\ common_headers w' = common_headers w
    /\ session_state w' = session_state w
    /\ browser_state w'
       = (if unauthorized signin
          then {| localStorage := base.delete "token" (localStorage (browser_state w));
                  location_href := "/login" |}
          else browser_state w).
Proof.
  intros Hno.
  destruct (settle_refused signin (browser_state w) Hno) as (e & Hs & _).
  run_action. rewrite Hs. cbn.
  eexists _, _. split; [reflexivity|]. cbn.
  split; [now rewrite List.map_app|]. repeat split; reflexivity.
Qed.

(** X4: When the sign-in is accepted but the profile request is not, [login]
    reports failure and leaves the session as it was, yet the token it
    stored stays in place, unless the refusal was a 401, and the default
    [Authorization] header stays set in either case. *)
Theorem login_profile_refused
    (email password : string) (r : response) (tok : value) (me : reply) (w : world) :
  validateStatus (status r) = true ->
  member (data r) "access_token" = Some tok ->
  accepted me = false ->
  exists err w',
    login number_to_string email password (Responds r) me w
    = (Return (VObject (<["success" := VBool false]> (<["error" := err]> ∅))), w')
    /\ session_state w' = session_state w
    /\ common_headers w' !! "Authorization"
       = Some ("Bearer " +:+ ToString number_to_string tok)
    /\ localStorage (browser_state w') !! "token"
       = (if unauthorized me then None else Some (ToString number_to_string tok)).
Proof.
  intros Hr Htok Hno. run_action. cbn [settle]. unfold receive.
  rewrite Hr. cbn. rewrite Htok. cbn.
  match goal with |- context [settle me ?b] =>
    destruct (settle_refused me b Hno) as (e & Hs & _); rewrite Hs end.
  cbn. eexists _, _. split; [reflexivity|]. cbn.
  split; [reflexivity|]. split; [apply lookup_insert_eq|].
  destruct (unauthorized me); cbn; [apply lookup_delete_eq | apply lookup_insert_eq].
Qed.

(** X5: [checkAuth] never throws and always ends the loading state, so the
    application shell leaves the spinner for the pages or the login page. *)
Theorem checkAuth_always_finishes (me : reply) (w : world) :
  exists w',
    checkAuth me w = (Return tt, w')
    /\ loading (session_state w') = false
    /\ AppContent (session_state w')
       = (if isAuthenticated (session_state w') then Pages else LoginPage).
Proof.
  run_action. cbn.
  destruct (localStorage (browser_state w) !! "token") as [t|]; cbn.
  - destruct (String.eqb t ""); cbn.
    + eexists. split; [reflexivity|]. cbn. split; [reflexivity|].
      unfold AppContent; cbn. now destruct (isAuthenticated (session_state w)).
    + destruct (settle me _) as [b [r|e]]; cbn;
        (eexists; split; [reflexivity|]; cbn; split; [reflexivity|]);
        unfold AppContent; cbn; [reflexivity|].
      now destruct (isAuthenticated (session_state w)).
  - eexists. split; [reflexivity|]. cbn. split; [reflexivity|].
    unfold AppContent; cbn. now destruct (isAuthenticated (session_state w)).
Qed.

(** X6: Without a stored token, or with an empty one, [checkAuth] sends no
    request and changes nothing but the loading flag. *)
Theorem checkAuth_without_token (me : reply) (w : world) :
  localStorage (browser_state w) !! "token" = None
  \/ localStorage (browser_state w) !! "token" = Some "" ->
  checkAuth me w = (Return tt, setLoading false w).
Proof.
  intros [H|H]; run_action; cbn; rewrite H; reflexivity.
Qed.

(** X7: A stored token the server no longer accepts is cleaned up: the token
    and the default [Authorization] header are removed, the user and the
    authenticated flag stay as they were, and an application that was
    starting up shows the login page. *)
Theorem checkAuth_stale_token (t : string) (me : reply) (w : world) :
  localStorage (browser_state w) !! "token" = Some t ->
  t <> "" ->
  accepted me = false ->
  exists w',
    checkAuth me w = (Return tt, w')
    /\ localStorage (browser_state w') !! "token" = None
    /\ common_headers w' !! "Authorization" = None
    /\ session_state w'
       = {| user := user (session_state w); loading := false;
            isAuthenticated := isAuthenticated (session_state w) |}
    /\ map url (request_log w') = map url (request_log w) ++ ["/auth/me"]
    /\ (session_state w = initial_session ->
        AppContent (session_state w') = LoginPage).
Proof.
  intros Ht Hne Hno. run_action. cbn. rewrite Ht.
  destruct (String.eqb_spec t "") as [He|_]; [contradiction|]. cbn.
  match goal with |- context [settle me ?b] =>
    destruct (settle_refused me b Hno) as (e & Hs & _); rewrite Hs end.
  cbn. eexists. split; [reflexivity|]. cbn.
  split; [apply lookup_delete_eq|]. split; [apply lookup_delete_eq|].
  split; [reflexivity|]. split; [now rewrite List.map_app|].
  intros Hinit. unfold AppContent. cbn. now rewrite Hinit.
Qed.

(** X8: A stored token the server accepts authenticates the session with the
    profile returned, keeps the token, and opens the pages. *)
Theorem checkAuth_valid_token (t : string) (m : response) (w : world) :
  localStorage (browser_state w) !! "token" = Some t ->
  t <> "" ->
  validateStatus (status m) = true ->
  exists w',
    checkAuth (Responds m) w = (Return tt, w')
    /\ session_state w'
       = {| user := data m; loading := false; isAuthenticated := true |}
    /\ AppContent (session_state w') = Pages
    /\ common_headers w' !! "Authorization" = Some ("Bearer " +:+ t)
    /\ browser_state w' = browser_state w.
Proof.
  intros Ht Hne Hm. run_action. cbn. rewrite Ht.
  destruct (String.eqb_spec t "") as [He|_]; [contradiction|]. cbn.
  unfold receive. rewrite Hm. cbn.
  eexists. split; [reflexivity|]. cbn.
  split; [reflexivity|]. split; [reflexivity|].
  split; [apply lookup_insert_eq|]. now destruct (browser_state w).
Qed.

(** How [connectXero] completes. *)
Lemma connectXero_run (connect : reply) (w : world) :
  match connectXero number_to_string connect w with
  | (Return _, w') =>
      exists r u,
        connect = Responds r
        /\ validateStatus (status r) = true
        /\ member (data r) "authorization_url" = Some u
        /\ location_href (browser_state w') = ToString number_to_string u
        /\ console_log w' = console_log w
  | (Throw e, w') =>
      console_log w' = console_log w ++ [("Xero connection failed:", e)]
      /\ (accepted connect = false
          \/ exists r, connect = Responds r
                       /\ member (data r) "authorization_url" = None)
  end.
Proof.
  run_action.
  destruct (settle connect (browser_state w)) as [b [r|e]] eqn:Hs; cbn.
  - apply settle_Fulfilled in Hs as (-> & -> & Hv).
    destruct (member (data r) "authorization_url") as [u|] eqn:Hu; cbn.
    + exists r, u. repeat split; auto.
    + split; [reflexivity|]. right. now exists r.
  - split; [reflexivity|]. left.
    destruct (accepted connect) eqn:Ha; [|reflexivity].
    destruct (settle_accepted connect (browser_state w) Ha) as (r & _ & Hs').
    rewrite Hs' in Hs. apply (f_equal snd) in Hs. discriminate Hs.
Qed.

(** X10: [connectXero] either sends the browser to the authorization URL of an
    accepted answer, or logs the failure and throws it on to its caller; it
    never returns without having navigated. *)
Theorem connectXero_navigates_or_throws (connect : reply) (w : world) :
  (exists w' r u,
      connectXero number_to_string connect w = (Return tt, w')
      /\ connect = Responds r
      /\ validateStatus (status r) = true
      /\ member (data r) "authorization_url" = Some u
      /\ location_href (browser_state w') = ToString number_to_string u
      /\ console_log w' = console_log w)
  \/ (exists e w',
         connectXero number_to_string connect w = (Throw e, w')
         /\ console_log w' = console_log w ++ [("Xero connection failed:", e)]
         /\ (accepted connect = false
             \/ exists r, connect = Responds r
                          /\ member (data r) "authorization_url" = None)).
Proof.
  pose proof (connectXero_run connect w) as H.
  destruct (connectXero number_to_string connect w) as [[[]|e] w'].
  - left. destruct H as (r & u & H). exists w', r, u. tauto.
  - right. exists e, w'. tauto.
Qed.

(** [register] never throws: it makes one request and returns a [success]
    flag that tells whether the request was accepted, with a truthy error
    text when it was not; the session is not touched. *)
Theorem register_never_throws (email password : string) (signup : reply) (w : world) :
  exists o w',
    register email password signup w = (Return (VObject o), w')
    /\ o !! "success" = Some (VBool (accepted signup))
    /\ (accepted signup = false -> ToBoolean (get o "error") = true)
    /\ map url (request_log w') = map url (request_log w) ++ ["/auth/register"]
    /\ session_state w' = session_state w.
Proof.
  run_action.
  destruct (accepted signup) eqn:Ha.
  - destruct (settle_accepted signup (browser_state w) Ha) as (r & _ & Hs).
    rewrite Hs. cbn. eexists _, _. split; [reflexivity|]. cbn.
    split; [apply lookup_insert_eq|]. split; [discriminate|].
    split; [now rewrite List.map_app | reflexivity].
  - destruct (settle_refused signup (browser_state w) Ha) as (e & Hs & _).
    rewrite Hs. cbn. eexists _, _. split; [reflexivity|]. cbn.
    split; [apply lookup_insert_eq|].
    split; [intros _; unfold get; rewrite lookup_insert_ne by discriminate;
            rewrite lookup_insert_eq; now apply or_truthy|].
    split; [now rewrite List.map_app | reflexivity].
Qed.

(** X11: [disconnectXero] never throws: it makes one request and returns a
    [success] flag that tells whether the request was accepted. When it was
    accepted the object is [{ success: true }] and nothing is logged; when
    it was not, the object is [{ success: false, error }] with [error] the
    message of the very error the request was rejected with, and that
    error is on the console. The session is not touched. *)
Theorem disconnectXero_never_throws (disconnect : reply) (w : world) :
  exists o w',
    disconnectXero disconnect w = (Return (VObject o), w')
    /\ o !! "success" = Some (VBool (accepted disconnect))
    /\ (accepted disconnect = true ->
        o = <["success" := VBool true]> ∅
        /\ console_log w' = console_log w)
    /\ (accepted disconnect = false ->
        exists e,
          snd (settle disconnect (browser_state w)) = Rejected e
          /\ o = <["success" := VBool false]> (<["error" := VString (message e)]> ∅)
          /\ console_log w' = console_log w ++ [("Xero disconnection failed:", e)])
    /\ (forall reason, disconnect = Fails reason ->
        o !! "error" = Some (VString reason))
    /\ map url (request_log w') = map url (request_log w) ++ ["/auth/xero/disconnect"]
    /\ session_state w' = session_state w.
Proof.
  run_action.
  destruct (accepted disconnect) eqn:Ha.
  - destruct (settle_accepted disconnect (browser_state w) Ha) as (r & Hr & Hs).
    rewrite Hs. cbn. eexists _, _. split; [reflexivity|]. cbn.
    split; [apply lookup_insert_eq|].
    split; [intros _; split; reflexivity|].
    split; [discriminate|].
    split; [intros reason Hf; rewrite Hf in Hr; discriminate Hr|].
    split; [now rewrite List.map_app | reflexivity].
  - destruct (settle_refused disconnect (browser_state w) Ha) as (e & Hs & _).
    rewrite Hs. cbn. eexists _, _. split; [reflexivity|]. cbn.
    split; [apply lookup_insert_eq|].
    split; [discriminate|].
    split; [intros _; exists e; repeat split; reflexivity|].
    split.
    { intros reason Hf. rewrite Hf in Hs. cbn in Hs. unfold on_response_error in Hs.
      apply (f_equal snd) in Hs. cbn in Hs.
      apply (f_equal (fun p => match p with
                               | Fulfilled _ => reason
                               | Rejected x => message x
                               end)) in Hs. cbn in Hs.
      rewrite lookup_insert_ne by discriminate. rewrite lookup_insert_eq.
      now rewrite <- Hs. }
    split; [now rewrite List.map_app | reflexivity].
Qed.

End Actions.

(** A sign-in answered with a token and a profile, on a fresh page. *)
Lemma login_success_witness :
  let w := {| browser_state := {| localStorage := ∅; location_href := "/login" |};
              common_headers := ∅; session_state := initial_session;
              console_log := []; request_log := [] |} in
  let r := {| status := 200;
              data := VObject (<["access_token" := VString "abc"]> ∅) |} in
  let m := {| status := 200;
              data := VObject (<["email" := VString "ada@example.org"]> ∅) |} in
  exists w',
    login (fun _ => "0") "ada@example.org" "secret" (Responds r) (Responds m) w
    = (Return (VObject (<["success" := VBool true]> ∅)), w')
    /\ localStorage (browser_state w') !! "token" = Some "abc"
    /\ common_headers w' !! "Authorization" = Some "Bearer abc".
Proof.
  intros w r m.
  destruct (login_success (fun _ => "0") "ada@example.org" "secret" r m
              (VString "abc") w eq_refl eq_refl eq_refl)
    as (w' & Hrun & Htok & Hhdr & _).
  exists w'. split; [exact Hrun|]. split; [exact Htok | exact Hhdr].
Defined.

(** A sign-in answered 401. *)
Lemma login_refused_sign_in_witness :
  let w := {| browser_state := {| localStorage := ∅; location_href := "/login" |};
              common_headers := ∅; session_state := initial_session;
              console_log := []; request_log := [] |} in
  let signin := Responds {| status := 401; data := VNull |} in
  let me := Responds {| status := 200; data := VNull |} in
  exists err w',
    login (fun _ => "0") "ada@example.org" "wrong" signin me w
    = (Return (VObject (<["success" := VBool false]> (<["error" := err]> ∅))), w')
    /\ map url (request_log w') = ["/auth/login"]
    /\ session_state w' = initial_session.
Proof.
  intros w signin me.
  destruct (login_refused_sign_in (fun _ => "0") "ada@example.org" "wrong" signin me w
              eq_refl)
    as (err & w' & Hrun & Hlog & _ & Hsession & _).
  exists err, w'. split; [exact Hrun|]. split; [exact Hlog | exact Hsession].
Defined.

(** A sign-in accepted, then the profile request answered 500. *)
Lemma login_profile_refused_witness :
  let w := {| browser_state := {| localStorage := ∅; location_href := "/login" |};
              common_headers := ∅; session_state := initial_session;
              console_log := []; request_log := [] |} in
  let r := {| status := 200;
              data := VObject (<["access_token" := VString "abc"]> ∅) |} in
  let me := Responds {| status := 500; data := VNull |} in
  exists err w',
    login (fun _ => "0") "ada@example.org" "secret" (Responds r) me w
    = (Return (VObject (<["success" := VBool false]> (<["error" := err]> ∅))), w')
    /\ isAuthenticated (session_state w') = false
    /\ localStorage (browser_state w') !! "token" = Some "abc".
Proof.
  intros w r me.
  destruct (login_profile_refused (fun _ => "0") "ada@example.org" "secret" r
              (VString "abc") me w eq_refl eq_refl eq_refl)
    as (err & w' & Hrun & Hsession & _ & Htok).
  exists err, w'. split; [exact Hrun|]. split; [now rewrite Hsession | exact Htok].
Defined.

(** A first visit: nothing is stored. *)
Lemma checkAuth_without_token_witness :
  let w := {| browser_state := {| localStorage := ∅; location_href := "/" |};
              common_headers := ∅; session_state := initial_session;
              console_log := []; request_log := [] |} in
  checkAuth (Fails "Network Error") w = (Return tt, setLoading false w)
  /\ request_log (setLoading false w) = [].
Proof.
  intros w. split; [|reflexivity].
  apply checkAuth_without_token. left. reflexivity.
Defined.

(** A return visit with a token the server answers 401 to. *)
Lemma checkAuth_stale_token_witness :
  let w := {| browser_state := {| localStorage := <["token" := "abc"]> ∅;
                                  location_href := "/" |};
              common_headers := ∅; session_state := initial_session;
              console_log := []; request_log := [] |} in
  exists w',
    checkAuth (Responds {| status := 401; data := VNull |}) w = (Return tt, w')
    /\ localStorage (browser_state w') !! "token" = None
    /\ AppContent (session_state w') = LoginPage.
Proof.
  intros w.
  assert (Hne : "abc" <> "") by discriminate.
  destruct (checkAuth_stale_token "abc" (Responds {| status := 401; data := VNull |}) w
              eq_refl Hne eq_refl)
    as (w' & Hrun & Htok & _ & _ & _ & Hpage).
  exists w'. split; [exact Hrun|]. split; [exact Htok | exact (Hpage eq_refl)].
Defined.

(** A return visit with a token the server accepts. *)
Lemma checkAuth_valid_token_witness :
  let w := {| browser_state := {| localStorage := <["token" := "abc"]> ∅;
                                  location_href := "/" |};
              common_headers := ∅; session_state := initial_session;
              console_log := []; request_log := [] |} in
  let m := {| status := 200;
              data := VObject (<["email" := VString "ada@example.org"]> ∅) |} in
  exists w',
    checkAuth (Responds m) w = (Return tt, w')
    /\ AppContent (session_state w') = Pages
    /\ common_headers w' !! "Authorization" = Some "Bearer abc".
Proof.
  intros w m.
  assert (Hne : "abc" <> "") by discriminate.
  destruct (checkAuth_valid_token "abc" m w eq_refl Hne eq_refl)
    as (w' & Hrun & _ & Hpage & Hhdr & _).
  exists w'. split; [exact Hrun|]. split; [exact Hpage | exact Hhdr].
Defined.

(** X9: [logout] removes the token and the default [Authorization] header,
    clears the user and the authenticated flag, touches no other stored
    item and sends nothing; the request interceptor then adds no header,
    and logging out again changes nothing. *)
Theorem logout_clears_credentials (w : world) :
  exists w',
    logout w = (Return tt, w')
    /\ localStorage (browser_state w') !! "token" = None
    /\ (forall k, k <> "token" ->
        localStorage (browser_state w') !! k = localStorage (browser_state w) !! k)
    /\ common_headers w' !! "Authorization" = None
    /\ user (session_state w') = VNull
    /\ isAuthenticated (session_state w') = false
    /\ request_log w' = request_log w
    /\ (forall headers, on_request headers (browser_state w') = headers)
    /\ logout w' = (Return tt, w').
Proof.
  unfold logout, bind, modify. cbn.
  eexists. split; [reflexivity|]. cbn.
  split; [apply lookup_delete_eq|].
  split; [intros k Hk; now apply lookup_delete_ne|].
  split; [apply lookup_delete_eq|].
  repeat (split; [reflexivity|]).
  split.
  - intros headers. unfold on_request. cbn. now rewrite lookup_delete_eq.
  - unfold setIsAuthenticated, setUser, with_headers, removeItem, with_session,
      with_browser. cbn. now rewrite !delete_delete_eq.
Qed.

End AuthProviderFacts.

(** ** The response and request interceptors together *)

Module ApiRequestFacts.
Import JS Api.

(** The request interceptor sets [Authorization] to the stored token when
    there is a non-empty one, returns the headers as they are otherwise,
    and never touches another header. *)
Theorem request_interceptor_attaches_token (headers : gmap string string) (b : browser) :
  (forall k, k <> "Authorization" -> on_request headers b !! k = headers !! k)
  /\ (forall t, localStorage b !! "token" = Some t -> t <> "" ->
        on_request headers b !! "Authorization" = Some ("Bearer " +:+ t))
  /\ (localStorage b !! "token" = None \/ localStorage b !! "token" = Some "" ->
      on_request headers b = headers).
Proof.
  unfold on_request. split; [|split].
  - intros k Hk. destruct (localStorage b !! "token") as [t|]; [|reflexivity].
    destruct (String.eqb t ""); [reflexivity|].
    now apply lookup_insert_ne.
  - intros t Ht Hne. rewrite Ht.
    destruct (String.eqb_spec t ""); [contradiction|]. apply lookup_insert_eq.
  - intros [H|H]; rewrite H; reflexivity.
Qed.

(** A signed-in browser, and one without a token. *)
Lemma request_interceptor_witness :
  let signed_in := {| localStorage := {[ "token" := "abc.def" ]};
                      location_href := "/dashboard" |} in
  let signed_out := {| localStorage := ∅; location_href := "/login" |} in
  let headers : gmap string string := {[ "Content-Type" := "application/json" ]} in
  on_request headers signed_in !! "Authorization" = Some "Bearer abc.def"
  /\ on_request headers signed_out = headers.
Proof.
  intros signed_in signed_out headers. split.
  - apply (proj1 (proj2 (request_interceptor_attaches_token headers signed_in)) "abc.def");
      [reflexivity | discriminate].
  - apply (proj2 (proj2 (request_interceptor_attaches_token headers signed_out))).
    left. reflexivity.
Defined.

(** X12: Once a response with status 401 has come in, the request interceptor
    attaches no token to the requests that follow; a response with any
    other status leaves what it attaches unchanged. *)
Theorem no_token_attached_after_401
    (r : response) (b : browser) (headers : gmap string string) :
  (status r = 401 -> on_request headers (fst (receive r b)) = headers)
  /\ (status r <> 401 ->
      on_request headers (fst (receive r b)) = on_request headers b).
Proof.
  unfold receive. split.
  - intros Hr. rewrite Hr. change (validateStatus 401) with false. cbn iota.
    unfold on_response_error, error_status, status_error.
    cbn [error_response fmap option_fmap option_map]. rewrite Hr.
    destruct (decide (Some 401 = Some 401)) as [_|Hne]; [|contradiction].
    unfold on_request. cbn. now rewrite lookup_delete_eq.
  - intros Hr. destruct (validateStatus (status r)); [reflexivity|].
    unfold on_response_error, error_status, status_error.
    cbn [error_response fmap option_fmap option_map].
    destruct (decide (Some (status r) = Some 401)) as [Heq|_]; [|reflexivity].
    exfalso. apply Hr. now apply (f_equal (default 0)) in Heq.
Qed.

(** A signed-in browser receiving a 401. *)
Lemma no_token_after_401_witness :
  let b := {| localStorage := {[ "token" := "abc.def" ]};
              location_href := "/dashboard" |} in
  on_request ∅ (fst (receive {| status := 401; data := VNull |} b)) = ∅.
Proof.
  intros b.
  apply (proj1 (no_token_attached_after_401 {| status := 401; data := VNull |} b ∅)).
  reflexivity.
Defined.

End ApiRequestFacts.

(** ** Sessions of the scenario simulator *)

Module ScenarioSimulatorSessionFacts.
Import JS ScenarioSimulator ScenarioSimulatorSessions JSFacts ScenarioSimulatorFacts.

(** What one event sends, and what it does to the loading flag. *)
Lemma handle_in_flight (st : state) (e : event) :
  (length (snd (handle st e)) + (if loading (fst (handle st e)) then 0 else 1)
   <= (if loading st then 0 else 1) + (if is_settled e then 1 else 0))%nat.
Proof.
  destruct e as [ps|i|v|v|v|v| |[d|]|]; simpl;
    try destruct (take 4 (presets st) !! i); simpl;
    destruct (loading st) eqn:Hl; simpl; rewrite ?Hl; lia.
Qed.

(** X13: While a simulation is loading the Run button sends nothing: a session
    issues at most one request more than the simulations that have settled
    in it. *)
Theorem at_most_one_request_in_flight (evs : list event) (st : state) :
  (length (snd (run st evs)) + (if loading (fst (run st evs)) then 0 else 1)
   <= (if loading st then 0 else 1) + length (List.filter is_settled evs))%nat.
Proof.
  revert st. induction evs as [|e evs IH]; intros st.
  - simpl. lia.
  - pose proof (handle_in_flight st e) as He. simpl.
    destruct (handle st e) as [st1 out1]. cbn [fst snd] in He.
    specialize (IH st1). destruct (run st1 evs) as [st2 out2]. cbn [fst snd] in *.
    rewrite length_app. destruct (is_settled e); simpl; lia.
Qed.

(** X14: The horizon has no control of its own: unless a preset sets
    [days_ahead], every request carries the 90 days of the initial state. *)
Theorem days_ahead_stays_ninety (evs : list event) :
  Forall (preset_omits "days_ahead") evs ->
  Forall (fun body => get body "days_ahead" = VNumber 90%float)
         (snd (run initial evs)).
Proof.
  intros Homit.
  assert (H : Forall (fun body => is_ninety (get body "days_ahead") = true)
                     (snd (run initial evs))).
  { apply (run_field_ok "days_ahead" is_ninety eq_refl evs initial).
    - eapply Forall_impl; [exact Homit|]. intros e He.
      destruct e; simpl in *; try exact I.
      eapply Forall_impl; [exact He|]. intros p Hp v Hv. congruence.
    - apply Forall_forall. intros e _ v Ha.
      now apply assignment_not_days_ahead in Ha.
    - now apply initial_field_ok. }
  eapply Forall_impl; [exact H|]. intros body Hb. simpl in Hb.
  destruct (get body "days_ahead") as [| |b|n|s|o]; try discriminate Hb.
  simpl in Hb. apply FloatAxioms.Leibniz.eqb_spec in Hb. now subst n.
Qed.

(** A session with a preset that changes the percentages only. *)
Lemma days_ahead_stays_ninety_witness :
  let downturn := {| name := VString "Downturn"; description := VNull;
                     preset_parameters := {[ "revenue_change_percent" := VNumber (-30)%float ]} |} in
  Forall (fun body => get body "days_ahead" = VNumber 90%float)
         (snd (run initial [PresetsLoaded [downturn]; ClickPreset 0;
                            ChangeOneTimeIncome "500"; ClickRun])).
Proof.
  intros downturn. apply days_ahead_stays_ninety.
  repeat constructor.
Defined.

(** Applying a preset gives every field the preset sets the preset's value
    and leaves the others, with the result, the loading flag and the
    presets, as they were; applying it a second time changes nothing. *)
Theorem applyPreset_overrides_once (st : state) (p : preset) :
  (forall k, get (parameters (applyPreset st p)) k
             = match preset_parameters p !! k with
               | Some v => v
               | None => get (parameters st) k
               end)
  /\ result (applyPreset st p) = result st
  /\ loading (applyPreset st p) = loading st
  /\ presets (applyPreset st p) = presets st
  /\ applyPreset (applyPreset st p) p = applyPreset st p.
Proof.
  split; [intros k; apply get_spread|].
  repeat (split; [reflexivity|]).
  unfold applyPreset, setParameters, spread. cbn. f_equal.
  apply map_eq. intros k. rewrite !lookup_union.
  destruct (preset_parameters p !! k), (parameters st !! k); reflexivity.
Qed.

End ScenarioSimulatorSessionFacts.


Module DashboardPageFacts.
Import JS Operators Api AuthContext Effect Dashboard DashboardPage JSFacts OperatorFacts.

Ltac run_page :=
  unfold loadDashboardData, generateNewForecast, call, try_finally, try_catch,
    Effect.bind, Effect.await, modify, Effect.ret, throw.

(** The figures of the four cards are never falsy: a missing, zero or
    [NaN] figure is replaced by the default of its card, and a projection
    without a usable last point by the current balance. *)
Theorem card_figures_never_falsy
    (forecastData : list obj) (summary transactionSummary : obj) :
  ToBoolean (currentBalance transactionSummary) = true
  /\ ToBoolean (projectedBalance forecastData transactionSummary) = true
  /\ ToBoolean (cashRunwayDays summary) = true
  /\ ToBoolean (monthlyBurnRate transactionSummary) = true
  /\ (ToBoolean (get transactionSummary "net_cash_flow") = false ->
      currentBalance transactionSummary = VNumber 50000%float)
  /\ (ToBoolean (get summary "cash_runway_days") = false ->
      cashRunwayDays summary = VNumber 90%float).
Proof.
  assert (Hor : forall a b, ToBoolean b = true -> ToBoolean (JS.or a b) = true).
  { intros a b Hb. unfold JS.or. now destruct (ToBoolean a) eqn:Ha. }
  assert (Hcur : ToBoolean (currentBalance transactionSummary) = true)
    by now apply Hor.
  split; [exact Hcur|]. split.
  { unfold projectedBalance. destruct (last forecastData); [now apply Hor | exact Hcur]. }
  split; [now apply Hor|]. split; [now apply Hor|].
  split; intros H; [unfold currentBalance | unfold cashRunwayDays];
    unfold JS.or; now rewrite H.
Qed.

(** X15: The trend of the runway card: a truthy number of days is positive above
    60, neutral above 30 and negative otherwise; a runway that is missing or
    0 is shown as 90 days, hence positive. *)
Theorem runway_trend_thresholds (s : state) :
  (forall n, get (summary s) "cash_runway_days" = VNumber n ->
             ToBoolean (VNumber n) = true ->
             runway_trend s
             = VString (if (60 <? n)%float then "positive"
                        else if (30 <? n)%float then "neutral" else "negative"))
  /\ (ToBoolean (get (summary s) "cash_runway_days") = false ->
      cashRunwayDays (summary s) = VNumber 90%float
      /\ runway_trend s = VString "positive").
Proof.
  unfold runway_trend, cashRunwayDays, JS.or. split.
  - intros n Hn Ht. rewrite Hn, Ht, !gt_numbers. reflexivity.
  - intros Hf. rewrite Hf. split; reflexivity.
Qed.

(** 45 days of runway; and a runway of 0 days. *)
Lemma runway_trend_witness :
  let with_runway (v : value) :=
    setSummary {[ "cash_runway_days" := v ]} (setLoading false initial) in
  runway_trend (with_runway (VNumber 45%float)) = VString "neutral"
  /\ cashRunwayDays (summary (with_runway (VNumber 0%float))) = VNumber 90%float
  /\ runway_trend (with_runway (VNumber 0%float)) = VString "positive".
Proof.
  intros with_runway. split.
  - apply (proj1 (runway_trend_thresholds (with_runway (VNumber 45%float))) 45%float);
      reflexivity.
  - apply (proj2 (runway_trend_thresholds (with_runway (VNumber 0%float)))).
    reflexivity.
Defined.

(** X16: The projection card reads the last forecast point only; when there is
    no forecast, or its last point has no usable balance, the card shows
    the current balance and its trend is negative. *)
Theorem projection_falls_back_to_current (s : state) :
  (forall earlier p, forecastData s = earlier ++ [p] ->
     projectedBalance (forecastData s) (transactionSummary s)
     = JS.or (get p "predicted_cash_balance") (currentBalance (transactionSummary s)))
  /\ (forecastData s = []
      \/ (exists earlier p, forecastData s = earlier ++ [p]
                            /\ ToBoolean (get p "predicted_cash_balance") = false) ->
      projectedBalance (forecastData s) (transactionSummary s)
      = currentBalance (transactionSummary s)
      /\ projection_trend s = VString "negative").
Proof.
  split.
  - intros earlier p Hfd. unfold projectedBalance. now rewrite Hfd, last_snoc.
  - intros H.
    assert (Hp : projectedBalance (forecastData s) (transactionSummary s)
                 = currentBalance (transactionSummary s)).
    { unfold projectedBalance. destruct H as [H|(earlier & p & H & Hf)]; rewrite H.
      - reflexivity.
      - rewrite last_snoc. unfold JS.or at 1. now rewrite Hf. }
    split; [exact Hp|]. unfold projection_trend. now rewrite Hp, gt_irrefl.
Qed.

(** A page that has loaded no forecast. *)
Lemma projection_falls_back_witness :
  let s := setTransactionSummary
             (VObject (<["net_cash_flow" := VNumber 1200%float]> ∅))
             (setLoading false initial) in
  projectedBalance (forecastData s) (transactionSummary s) = VNumber 1200%float
  /\ projection_trend s = VString "negative".
Proof.
  intros s.
  apply (proj2 (projection_falls_back_to_current s)). left. reflexivity.
Defined.

(** X17: [loadDashboardData] never throws, never alerts and always ends the
    loading state. What it stores follows the requests, in order. When the
    forecast request is rejected, or fulfilled with a body that is [null]
    or [undefined] (reading its [forecasts] throws), nothing is stored, the
    summary is not requested and the error is logged. Otherwise the
    forecast and its summary are stored, [[]] and [{}] standing in for a
    missing field, and the summary is requested: its body is stored as it
    is, [null] included, when the request is fulfilled, and the stored
    summary stays as it was, with the error logged, when it is rejected. *)
Theorem loadDashboardData_outcomes
    (latest : promise (option forecast_body)) (summ : promise value) (s : state) :
  exists s',
    loadDashboardData latest summ s = (Return tt, s')
    /\ loading s' = false
    /\ alerts s' = alerts s
    /\ match latest with
       | Rejected e => stopped_at_forecast e s s'
       | Fulfilled None => stopped_at_forecast TypeError s s'
       | Fulfilled (Some body) =>
           forecastData s' = default [] (forecasts body)
           /\ summary s' = default ∅ (forecast_summary body)
           /\ requested s'
              = requested s ++ ["/api/forecast/latest"; "/api/transactions/summary"]
           /\ match summ with
              | Fulfilled v =>
                  transactionSummary_cell s' = v /\ console s' = console s
              | Rejected e =>
                  transactionSummary_cell s' = transactionSummary_cell s
                  /\ console s' = console s ++ [("Failed to load dashboard data:", e)]
              end
       end.
Proof.
  run_page. unfold stopped_at_forecast. destruct latest as [[body|]|e]; cbn.
  - destruct summ as [o|e]; cbn; eexists; (split; [reflexivity|]); cbn;
      rewrite <- app_assoc; repeat split; reflexivity.
  - eexists. split; [reflexivity|]. cbn. repeat split; reflexivity.
  - eexists. split; [reflexivity|]. cbn. repeat split; reflexivity.
Qed.

(** X18: When the generation request is rejected, [generateNewForecast] shows
    one alert and reloads nothing, and the page is left in the loading
    state it entered; when the request is fulfilled the data is reloaded
    and the loading state ends. *)
Theorem generateNewForecast_outcomes
    (generated : promise unit) (latest : promise (option forecast_body))
    (summ : promise value) (s : state) :
  exists s',
    generateNewForecast generated latest summ s = (Return tt, s')
    /\ match generated with
       | Rejected e =>
           loading s' = true
           /\ alerts s' = alerts s ++ ["Failed to generate forecast. Please try again."]
           /\ requested s' = requested s ++ ["/api/forecast"]
           /\ forecastData s' = forecastData s
           /\ summary s' = summary s
           /\ transactionSummary s' = transactionSummary s
           /\ transactionSummary_cell s' = transactionSummary_cell s
       | Fulfilled _ =>
           loading s' = false
           /\ alerts s' = alerts s
           /\ exists rest, requested s'
                           = requested s ++ "/api/forecast" :: "/api/forecast/latest" :: rest
       end.
Proof.
  run_page. destruct generated as [[]|e]; cbn.
  - destruct latest as [[body|]|e]; cbn.
    + destruct summ as [o|e]; cbn; eexists; (split; [reflexivity|]); cbn;
        (split; [reflexivity|]); (split; [reflexivity|]);
        eexists; rewrite <- !app_assoc; reflexivity.
    + eexists. split; [reflexivity|]. cbn.
      split; [reflexivity|]. split; [reflexivity|].
      eexists. rewrite <- !app_assoc. reflexivity.
    + eexists. split; [reflexivity|]. cbn.
      split; [reflexivity|]. split; [reflexivity|].
      eexists. rewrite <- !app_assoc. reflexivity.
  - eexists. split; [reflexivity|]. cbn. repeat split; reflexivity.
Qed.

(** X19: Once the page is no longer loading, what the card row draws depends on
    the stored transaction summary. When it is [null] or [undefined] the
    render throws. Otherwise the row has exactly four cards, with the
    icons [BanknotesIcon], [TrendingUpIcon], [CalendarDaysIcon] and
    [TrendingDownIcon] in the grey icon class; none carries a change badge,
    so the trend shows in the border colour alone; every card has its
    description; the burn-rate card always has the neutral border and the
    runway card the border of its trend. *)
Theorem dashboard_cards_show_trend_in_border_only
    (toLocaleString ToString : value -> string) (s : state) :
  loading s = false ->
  match transactionSummary_cell s with
  | VUndefined | VNull => card_row toLocaleString ToString s = None
  | _ =>
      exists c1 c2 c3 c4,
        card_row toLocaleString ToString s = Some (Cards [c1; c2; c3; c4])
        /\ map KPICard.card_icon [c1; c2; c3; c4]
           = map (fun i => (i, "h-6 w-6 text-gray-400"))
                 [KPICard.BanknotesIcon; KPICard.TrendingUpIcon;
                  KPICard.CalendarDaysIcon; KPICard.TrendingDownIcon]
        /\ Forall (fun c => KPICard.badge c = KPICard.Nothing
                            /\ (exists d, KPICard.card_description c = KPICard.Element d)
                            /\ (KPICard.border c = "border-l-success-500"
                                \/ KPICard.border c = "border-l-danger-500"
                                \/ KPICard.border c = "border-l-primary-500"))
                  [c1; c2; c3; c4]
        /\ KPICard.border c4 = "border-l-primary-500"
        /\ KPICard.border c3 = KPICard.getBorderColor (runway_trend s)
  end.
Proof.
  intros Hl.
  assert (Hcards : readable s = true ->
    exists c1 c2 c3 c4,
      card_row toLocaleString ToString s = Some (Cards [c1; c2; c3; c4])
      /\ map KPICard.card_icon [c1; c2; c3; c4]
         = map (fun i => (i, "h-6 w-6 text-gray-400"))
               [KPICard.BanknotesIcon; KPICard.TrendingUpIcon;
                KPICard.CalendarDaysIcon; KPICard.TrendingDownIcon]
      /\ Forall (fun c => KPICard.badge c = KPICard.Nothing
                          /\ (exists d, KPICard.card_description c = KPICard.Element d)
                          /\ (KPICard.border c = "border-l-success-500"
                              \/ KPICard.border c = "border-l-danger-500"
                              \/ KPICard.border c = "border-l-primary-500"))
                [c1; c2; c3; c4]
      /\ KPICard.border c4 = "border-l-primary-500"
      /\ KPICard.border c3 = KPICard.getBorderColor (runway_trend s)).
  { intros Hr. unfold card_row. rewrite Hl, Hr. cbn [map cards].
    eexists _, _, _, _. split; [reflexivity|].
    unfold KPICard.render. cbn.
    split; [reflexivity|]. split; [|split; reflexivity].
    repeat (apply List.Forall_cons;
            [split; [reflexivity|]; split; [eexists; reflexivity|] |]);
      [| | | | apply List.Forall_nil].
    - unfold balance_trend. destruct (gt _ _); cbn; auto.
    - unfold projection_trend. destruct (gt _ _); cbn; auto.
    - unfold runway_trend. destruct (gt _ _); [|destruct (gt _ _)]; cbn; auto.
    - auto. }
  unfold readable in Hcards.
  destruct (transactionSummary_cell s) eqn:Hcell;
    try (apply Hcards; reflexivity);
    unfold card_row, readable; rewrite Hl, Hcell; reflexivity.
Qed.

(** A page that has loaded nothing yet but is no longer loading; and a
    page whose summary request was answered with [null]. *)
Lemma dashboard_cards_witness :
  (exists c1 c2 c3 c4,
      card_row (fun _ => "?") (fun _ => "?") (setLoading false initial)
      = Some (Cards [c1; c2; c3; c4])
      /\ KPICard.border c4 = "border-l-primary-500")
  /\ card_row (fun _ => "?") (fun _ => "?")
       (setTransactionSummary VNull (setLoading false initial)) = None.
Proof.
  split.
  - destruct (dashboard_cards_show_trend_in_border_only
                (fun _ => "?") (fun _ => "?") (setLoading false initial) eq_refl)
      as (c1 & c2 & c3 & c4 & Hrow & _ & _ & Hb & _).
    now exists c1, c2, c3, c4.
  - exact (dashboard_cards_show_trend_in_border_only
             (fun _ => "?") (fun _ => "?")
             (setTransactionSummary VNull (setLoading false initial)) eq_refl).
Defined.

End DashboardPageFacts.

(** ** The cash-flow chart *)

Module CashFlowChartFacts.
Import JS Operators CashFlowChart JSFacts OperatorFacts.

Section Chart.

Variable format_date : value -> option string.

(** The expenses plotted for a point are never negative; when the server
    sends a number, or omits the field, they are its absolute value, 0 in
    place of a missing, zero or [NaN] figure. *)
Lemma chart_point_expenses (item : obj) (p : point) :
  chart_point format_date item = Some p ->
  (expenses p <? 0)%float = false
  /\ date p = get item "date"
  /\ (forall n, get item "predicted_expenses" = VNumber n ->
                (0 <=? expenses p)%float = true
                /\ expenses p = (if is_zero n || is_nan n then 0 else abs n)%float)
  /\ (get item "predicted_expenses" = VUndefined -> expenses p = 0%float).
Proof.
  unfold chart_point. destruct (format_date (get item "date")) as [text|]; [|discriminate].
  intros H. injection H as H. subst p.
  cbn [expenses date]. unfold Math_abs.
  split; [apply abs_not_negative|]. split; [reflexivity|]. split.
  - intros n Hn. rewrite Hn, or_number. cbn [ToNumber].
    destruct (is_zero n || is_nan n) eqn:Hc; [split; reflexivity|].
    split; [|reflexivity]. apply abs_not_negative.
    apply orb_false_elim in Hc. tauto.
  - intros Hu. rewrite Hu. reflexivity.
Qed.

(** X20: When the chart data can be built, it has one point per forecast item,
    in the order of the items, and no point plots negative expenses. *)
Theorem chartData_follows_the_forecast (data : list obj) (ps : list point) :
  chartData format_date data = Some ps ->
  length ps = length data
  /\ map date ps = map (fun item => get item "date") data
  /\ Forall (fun p => (expenses p <? 0)%float = false) ps
  /\ Forall2 (fun item p =>
                forall n, get item "predicted_expenses" = VNumber n ->
                          (0 <=? expenses p)%float = true)
             data ps.
Proof.
  revert ps. induction data as [|item data IH]; intros ps; simpl.
  - intros H. injection H as H. subst ps.
    repeat split; constructor.
  - destruct (chart_point format_date item) as [p|] eqn:Hp; [|discriminate].
    destruct (chartData format_date data) as [ps'|]; [|discriminate].
    intros H. injection H as H. subst ps.
    destruct (IH ps' eq_refl) as (Hlen & Hdates & Hneg & Hnum).
    destruct (chart_point_expenses item p Hp) as (Hneg1 & Hdate & Hnum1 & _).
    simpl. rewrite Hlen, Hdates, Hdate. repeat split.
    + now constructor.
    + constructor; [|exact Hnum]. intros n Hn. exact (proj1 (Hnum1 n Hn)).
Qed.

(** The chart data has one point per forecast item. *)
Lemma chartData_length (data : list obj) (ps : list point) :
  chartData format_date data = Some ps -> length ps = length data.
Proof.
  revert ps. induction data as [|item data IH]; intros ps; simpl.
  - intros H. injection H as H. now subst ps.
  - destruct (chart_point format_date item) as [p|]; [|discriminate].
    destruct (chartData format_date data) as [ps'|]; [|discriminate].
    intros H. injection H as H. subst ps. simpl. now rewrite (IH ps' eq_refl).
Qed.

(** X21: The component shows the empty notice exactly when there is no forecast
    item, and the confidence band exactly when some item carries a lower
    bound. *)
Theorem render_notice_and_band (data : list obj) (v : view) :
  render format_date data = Some v ->
  (v = NoData <-> data = [])
  /\ (forall ps band, v = Chart ps band ->
        (band = true <->
         exists item, item ∈ data
                      /\ get item "confidence_interval_lower" <> VUndefined)).
Proof.
  unfold render. destruct (chartData format_date data) as [ps|] eqn:Hps; [|discriminate].
  assert (Hlow : forall d qs, chartData format_date d = Some qs ->
            (existsb has_lower_bound qs = true <->
             exists item, item ∈ d /\ get item "confidence_interval_lower" <> VUndefined)).
  { induction d as [|item d IH]; intros qs; simpl.
    - intros H. injection H as H. subst qs. simpl.
      split; [discriminate|]. intros (item & Hin & _). now apply not_elem_of_nil in Hin.
    - unfold chart_point at 1.
      destruct (format_date (get item "date")) as [text|]; [|discriminate].
      destruct (chartData format_date d) as [qs'|]; [|discriminate].
      intros H. injection H as H. subst qs.
      cbn [existsb has_lower_bound lowerBound]. rewrite orb_true_iff, (IH qs' eq_refl).
      split.
      + intros [H|(it & Hin & Hne)].
        * exists item. split; [apply list_elem_of_here|].
          intros Hu. rewrite Hu in H. discriminate H.
        * exists it. split; [now apply list_elem_of_further | exact Hne].
      + intros (it & Hin & Hne). apply elem_of_cons in Hin as [->|Hin].
        * left. destruct (get item "confidence_interval_lower"); auto.
        * right. now exists it. }
  pose proof (chartData_length data ps Hps) as Hlen.
  destruct ps as [|p ps]; intros H; injection H as H; subst v.
  - split; [|discriminate]. split; [|reflexivity]. intros _.
    destruct data; [reflexivity | discriminate Hlen].
  - split.
    + split; [discriminate|]. intros ->. discriminate Hlen.
    + intros qs band Hv.
      assert (Hb : band = existsb has_lower_bound (p :: ps)).
      { apply (f_equal (fun w => match w with Chart _ b => b | NoData => band end)) in Hv.
        now symmetry. }
      rewrite Hb. now apply Hlow.
Qed.

End Chart.

(** Two forecast items, the second with expenses and bounds. *)
Lemma chartData_witness :
  let format_date := fun _ : value => Some "Jan 01" in
  let data : list obj :=
    [ {[ "date" := VString "2024-01-01" ]};
      <["date" := VString "2024-01-02"]>
        (<["predicted_expenses" := VNumber (-250)%float]>
        (<["confidence_interval_lower" := VNumber 10%float]> ∅)) ] in
  exists ps,
    chartData format_date data = Some ps
    /\ length ps = 2%nat
    /\ Forall (fun p => (expenses p <? 0)%float = false) ps.
Proof.
  intros format_date data.
  destruct (chartData format_date data) as [ps|] eqn:Hps; [|discriminate Hps].
  exists ps. split; [reflexivity|].
  destruct (chartData_follows_the_forecast format_date data ps Hps) as (Hlen & _ & Hneg & _).
  split; [exact Hlen | exact Hneg].
Defined.

(** One item with a lower bound: a chart with the band. *)
Lemma render_witness :
  let format_date := fun _ : value => Some "Jan 02" in
  let item : obj :=
    <["date" := VString "2024-01-02"]>
      (<["confidence_interval_lower" := VNumber 10%float]> ∅) in
  exists ps, render format_date [item] = Some (Chart ps true).
Proof.
  intros format_date item.
  destruct (render format_date [item]) as [v|] eqn:Hv; [|discriminate Hv].
  destruct (render_notice_and_band format_date [item] v Hv) as (Hnotice & Hband).
  destruct v as [|ps band].
  - discriminate (proj1 Hnotice eq_refl).
  - exists ps. f_equal. f_equal. apply (Hband ps band eq_refl).
    exists item. split; [apply list_elem_of_here|].
    unfold get, item. rewrite lookup_insert_ne by discriminate.
    rewrite lookup_insert_eq. discriminate.
Defined.

End CashFlowChartFacts.

(** ** The transactions page: loading, searching, submitting *)

Module TransactionsPageFacts.
Import JS Operators Api AuthContext Effect TransactionsPage JSFacts OperatorFacts.

Ltac run_page :=
  unfold loadTransactions, syncWithXero, submit, call, try_finally, try_catch,
    Effect.bind, Effect.await, checked, modify, gets, Effect.ret, throw.

(** X22: The query always asks for at most 100 rows; a filter is sent under its
    parameter name exactly when its control is not empty; the search text
    is never sent. *)
Theorem query_params_follow_the_filters (f : filters) :
  query_params f !! "limit" = Some (VNumber 100%float)
  /\ query_params f !! "transaction_type"
     = (if String.eqb (type f) "" then None else Some (VString (type f)))
  /\ query_params f !! "start_date"
     = (if String.eqb (startDate f) "" then None else Some (VString (startDate f)))
  /\ query_params f !! "end_date"
     = (if String.eqb (endDate f) "" then None else Some (VString (endDate f)))
  /\ (forall k, k ∉ ["limit"; "transaction_type"; "start_date"; "end_date"] ->
                query_params f !! k = None).
Proof.
  unfold query_params, spread, when_set.
  repeat split.
  - apply lookup_insert_eq.
  - rewrite lookup_insert_ne by discriminate. rewrite !lookup_union.
    destruct (String.eqb (type f) ""), (String.eqb (startDate f) ""),
      (String.eqb (endDate f) ""); reflexivity.
  - rewrite lookup_insert_ne by discriminate. rewrite !lookup_union.
    destruct (String.eqb (type f) ""), (String.eqb (startDate f) ""),
      (String.eqb (endDate f) ""); reflexivity.
  - rewrite lookup_insert_ne by discriminate. rewrite !lookup_union.
    destruct (String.eqb (type f) ""), (String.eqb (startDate f) ""),
      (String.eqb (endDate f) ""); reflexivity.
  - intros k Hk.
    assert (k <> "limit" /\ k <> "transaction_type" /\ k <> "start_date" /\ k <> "end_date")
      as (H1 & H2 & H3 & H4).
    { repeat split; intros ->; apply Hk; repeat constructor. }
    rewrite lookup_insert_ne by congruence. rewrite !lookup_union.
    destruct (String.eqb (type f) ""), (String.eqb (startDate f) ""),
      (String.eqb (endDate f) "");
      rewrite ?lookup_insert_ne, ?lookup_empty by congruence; reflexivity.
Qed.

Section Page.

Variable toLowerCase : string -> string.
Variable ToString : value -> string.

(** When the search filter does not throw, it keeps exactly the rows whose
    description or contact contains the text, in the order the server sent
    them. *)
Lemma search_filter_keeps_matches (needle : string) (data kept : list obj) :
  search_filter toLowerCase needle data = Some kept ->
  kept = List.filter
           (fun t => match matches toLowerCase needle t with
                     | Some true => true
                     | _ => false
                     end) data
  /\ kept `sublist_of` data.
Proof.
  revert kept. induction data as [|t data IH]; intros kept; simpl.
  - intros H. injection H as <-. split; [reflexivity | constructor].
  - destruct (matches toLowerCase needle t) as [keep|]; [|discriminate].
    destruct (search_filter toLowerCase needle data) as [kept'|]; [|discriminate].
    intros H. injection H as <-. destruct (IH kept' eq_refl) as (Heq & Hsub).
    destruct keep; (split; [now rewrite <- Heq|]).
    + now apply sublist_skip.
    + now apply sublist_cons.
Qed.

(** What [loadTransactions] leaves alone. *)
Lemma loadTransactions_frame (f : filters) (rows : promise (list obj)) (s : state) :
  exists s',
    loadTransactions toLowerCase f rows s = (Return tt, s')
    /\ loading s' = false
    /\ requested s' = requested s ++ [getAll (query_params f)]
    /\ alerts s' = alerts s
    /\ syncing s' = syncing s
    /\ showAddModal s' = showAddModal s
    /\ newTransaction s' = newTransaction s.
Proof.
  run_page. destruct rows as [data|e]; cbn.
  - destruct (String.eqb (search f) ""); cbn.
    + eexists. split; [reflexivity|]. cbn. repeat split; reflexivity.
    + destruct (search_filter toLowerCase (search f) data) as [kept|]; cbn;
        eexists; (split; [reflexivity|]); cbn; repeat split; reflexivity.
  - eexists. split; [reflexivity|]. cbn. repeat split; reflexivity.
Qed.

(** X23: [loadTransactions] never throws, makes one request with the query of
    the filters and always ends the loading state. With an empty search
    text the table gets the rows of the answer as they are; with a search
    text it gets the matching rows, in order; when the request is rejected
    or the search throws on a row, the table keeps what it showed. *)
Theorem loadTransactions_outcomes
    (f : filters) (rows : promise (list obj)) (s : state) :
  exists s',
    loadTransactions toLowerCase f rows s = (Return tt, s')
    /\ loading s' = false
    /\ requested s' = requested s ++ [getAll (query_params f)]
    /\ alerts s' = alerts s
    /\ match rows with
       | Rejected _ => transactions s' = transactions s
       | Fulfilled data =>
           if String.eqb (search f) "" then transactions s' = data
           else
             match search_filter toLowerCase (search f) data with
             | Some kept =>
                 transactions s' = kept
                 /\ kept `sublist_of` data
                 /\ Forall (fun t => matches toLowerCase (search f) t = Some true) kept
             | None => transactions s' = transactions s
             end
       end.
Proof.
  run_page. destruct rows as [data|e]; cbn.
  - destruct (String.eqb (search f) ""); cbn.
    + eexists. split; [reflexivity|]. cbn. repeat split; reflexivity.
    + destruct (search_filter toLowerCase (search f) data) as [kept|] eqn:Hk; cbn.
      * eexists. split; [reflexivity|]. cbn. repeat (split; [reflexivity|]).
        destruct (search_filter_keeps_matches _ _ _ Hk) as (Heq & Hsub).
        split; [exact Hsub|]. rewrite Heq. apply Forall_forall. intros t Ht.
        apply list_elem_of_In, filter_In in Ht as [_ Ht].
        destruct (matches toLowerCase (search f) t) as [[|]|]; congruence.
      * eexists. split; [reflexivity|]. cbn. repeat split; reflexivity.
  - eexists. split; [reflexivity|]. cbn. repeat split; reflexivity.
Qed.

(** X24: [syncWithXero] never throws, always ends the syncing state and shows
    exactly one alert: the message of the answer when the sync request is
    fulfilled, after which the list is reloaded; the failure text when the
    request is rejected or its answer has no body to read the message
    from, in which case nothing is reloaded. *)
Theorem syncWithXero_outcomes
    (f : filters) (synced : promise value) (rows : promise (list obj)) (s : state) :
  exists s',
    syncWithXero toLowerCase ToString f synced rows s = (Return tt, s')
    /\ syncing s' = false
    /\ match synced with
       | Fulfilled (VObject o) =>
           alerts s' = alerts s ++ [ToString (get o "message")]
           /\ requested s' = requested s ++ [syncXero; getAll (query_params f)]
           /\ loading s' = false
       | Fulfilled VNull | Fulfilled VUndefined | Rejected _ =>
           alerts s' = alerts s ++ ["Failed to sync with Xero. Please try again."]
           /\ requested s' = requested s ++ [syncXero]
           /\ transactions s' = transactions s
           /\ loading s' = loading s
       | Fulfilled _ =>
           alerts s' = alerts s ++ [ToString VUndefined]
           /\ requested s' = requested s ++ [syncXero; getAll (query_params f)]
           /\ loading s' = false
       end.
Proof.
  unfold syncWithXero, try_finally, try_catch, Effect.bind at 1 2 3 4, call,
    Effect.bind at 1, Effect.await, checked, modify, Effect.ret, throw.
  destruct synced as [[| |b|n|t|o]|e]; cbn;
    try (eexists; split; [reflexivity|]; cbn; repeat split; reflexivity);
    match goal with
    | |- context [loadTransactions _ _ _ ?s0] =>
        destruct (loadTransactions_frame f rows s0)
          as (s1 & Hrun & Hload & Hreq & Hal & _); rewrite Hrun
    end;
    cbn; (eexists; split; [reflexivity|]); cbn;
    (split; [reflexivity|]); rewrite Hal, Hreq, Hload; cbn;
    rewrite <- app_assoc; repeat split; reflexivity.
Qed.

(** X25: Submitting the form: when the transaction is created the modal closes,
    the form is blank again, set to income, and the list is reloaded; when
    the date is invalid nothing is sent, and when the creation is rejected
    nothing is reloaded; in both failures what the user typed stays in the
    open form and one alert is shown. *)
Theorem submit_outcomes
    (toISOString : string -> option string) (today : string)
    (f : filters) (created : promise unit) (rows : promise (list obj)) (s : state) :
  exists s',
    submit toLowerCase toISOString today f created rows s = (Return tt, s')
    /\ match Transactions.addTransaction toISOString (newTransaction s), created with
       | c :: _, Fulfilled _ =>
           showAddModal s' = false
           /\ newTransaction s' = blank_form today
           /\ requested s' = requested s ++ [send c; getAll (query_params f)]
           /\ alerts s' = alerts s
       | c :: _, Rejected _ =>
           showAddModal s' = showAddModal s
           /\ newTransaction s' = newTransaction s
           /\ requested s' = requested s ++ [send c]
           /\ alerts s' = alerts s ++ ["Failed to add transaction. Please try again."]
       | [], _ =>
           showAddModal s' = showAddModal s
           /\ newTransaction s' = newTransaction s
           /\ requested s' = requested s
           /\ alerts s' = alerts s ++ ["Failed to add transaction. Please try again."]
       end.
Proof.
  unfold submit, try_catch, Effect.bind at 1 2 3 4, gets, call, Effect.bind at 1,
    Effect.await, modify, Effect.ret, throw.
  destruct (Transactions.addTransaction toISOString (newTransaction s)) as [|c cs]; cbn.
  - eexists. split; [reflexivity|]. cbn. repeat split; reflexivity.
  - destruct created as [[]|e]; cbn.
    + match goal with |- context [loadTransactions _ _ _ ?s0] =>
        destruct (loadTransactions_frame f rows s0)
          as (s1 & Hrun & _ & Hreq & Hal & _ & Hmodal & Hform); rewrite Hrun end.
      cbn. eexists. split; [reflexivity|].
      rewrite Hreq, Hal, Hmodal, Hform. cbn. rewrite <- app_assoc.
      repeat split; reflexivity.
    + eexists. split; [reflexivity|]. cbn. repeat split; reflexivity.
Qed.

End Page.

(** X26: A transaction as the form sends it, entered with a positive amount, is
    drawn consistently: red amount and red badge for an expense, green
    amount and green badge for income. *)
Theorem submitted_row_colours_agree
    (toISOString : string -> option string)
    (newTransaction : Transactions.form) (transactionData : obj) :
  Transactions.create transactionData
    ∈ Transactions.addTransaction toISOString newTransaction ->
  (0 <? parseFloat (Transactions.amount newTransaction))%float = true ->
  (Transactions.type newTransaction = "expense" ->
     amount_class transactionData = "text-danger-600"
     /\ type_badge transactionData = "bg-danger-100 text-danger-800")
  /\ (Transactions.type newTransaction = "income" ->
     amount_class transactionData = "text-success-600"
     /\ type_badge transactionData = "bg-success-100 text-success-800").
Proof.
  intros Hsent Hpos. unfold Transactions.addTransaction in Hsent.
  destruct (toISOString (Transactions.date newTransaction)) as [iso|];
    [|now apply not_elem_of_nil in Hsent].
  apply list_elem_of_singleton in Hsent.
  apply (f_equal (fun c => match c with
                           | Transactions.create d => d
                           | Transactions.delete _ => ∅
                           end)) in Hsent.
  assert (Hamount : get transactionData "amount"
                    = VNumber (Transactions.signed_amount newTransaction)).
  { subst transactionData. unfold get.
    rewrite lookup_insert_ne by discriminate. now rewrite lookup_insert_eq. }
  assert (Htype : get transactionData "type" = VString (Transactions.type newTransaction)).
  { subst transactionData. unfold get, Transactions.form_fields.
    repeat (rewrite lookup_insert_ne by discriminate). now rewrite lookup_insert_eq. }
  unfold amount_class, type_badge. rewrite Hamount, Htype.
  unfold ge, less_than. cbn [ToPrimitive ToNumber].
  unfold Transactions.signed_amount, JS.mul. cbn [ToNumber].
  set (a := parseFloat (Transactions.amount newTransaction)) in *.
  assert (Hnan : is_nan a = false).
  { destruct (is_nan a) eqn:Hn; [|reflexivity].
    rewrite ltb_nan in Hpos; [discriminate | now rewrite Hn, orb_true_r]. }
  split; intros Ht; rewrite Ht; cbn.
  - rewrite mul_minus_one.
    assert (Hneg : (- a <? 0)%float = true) by now apply opp_negative.
    assert (Hn' : is_nan (- a) = false).
    { destruct (is_nan (- a)) eqn:Hn; [|reflexivity].
      rewrite ltb_nan in Hneg; [discriminate | now rewrite Hn]. }
    rewrite Hn', Hneg. split; reflexivity.
  - rewrite mul_one, Hnan. cbn.
    assert (Hnot : (a <? 0)%float = false).
    { rewrite ltb_spec in *. revert Hpos. change (Prim2SF 0) with (S754_zero false).
      destruct (Prim2SF a) as [s|s| |s m e]; simpl; try discriminate;
        destruct s; simpl; try discriminate; reflexivity. }
    rewrite Hnot. split; reflexivity.
Qed.

(** An expense of 40 and an income of 40. *)
Lemma submitted_row_colours_witness :
  let toISOString := fun d => Some (d +:+ "T00:00:00.000Z") in
  let expense :=
    {| Transactions.date := "2024-03-01"; Transactions.description := "Paper";
       Transactions.amount := "40"; Transactions.type := "expense";
       Transactions.category := ""; Transactions.account_name := "";
       Transactions.contact_name := "" |} in
  let transactionData :=
    <["date" := VString "2024-03-01T00:00:00.000Z"]>
      (<["amount" := VNumber (-40)%float]> (Transactions.form_fields expense)) in
  amount_class transactionData = "text-danger-600"
  /\ type_badge transactionData = "bg-danger-100 text-danger-800".
Proof.
  intros toISOString expense transactionData.
  apply (proj1 (submitted_row_colours_agree toISOString expense transactionData
                  ltac:(vm_compute; constructor) eq_refl)).
  reflexivity.
Defined.

End TransactionsPageFacts.

(** ** The settings page *)

Module SettingsFacts.
Import JS Operators Api AuthContext Effect AuthProvider Settings JSFacts AuthProviderFacts.

Ltac run_page :=
  unfold loadXeroStatus, handleDisconnectXero, handleConnectXero, xero_status,
    in_provider, try_finally, try_catch, Effect.bind, checked, log_error,
    modify, Effect.ret, throw.

(** X27: The panel is consistent: Disconnect and Reconnect are offered exactly
    when the indicator says connected, active or expired, and Connect
    exactly when it says not connected. *)
Theorem panel_buttons_match_indicator (s : state) (status : indicator) (buttons : list button) :
  render s = Some (Panel status buttons) ->
  (status = NotConnected <-> buttons = [Connect])
  /\ (status <> NotConnected <-> buttons = [Reconnect; Disconnect])
  /\ (Disconnect ∈ buttons <-> status <> NotConnected).
Proof.
  unfold render. destruct (loading s); [discriminate|].
  destruct (member (xeroStatus s) "is_connected") as [c|]; [|discriminate].
  destruct (member (xeroStatus s) "is_token_valid") as [v|]; [|discriminate].
  intros H. injection H as <- <-. unfold StatusIndicator, JS.not.
  destruct (ToBoolean c), (ToBoolean v); cbn;
    repeat split; intros H;
    first [ discriminate H
          | reflexivity
          | discriminate
          | now contradiction H
          | apply list_elem_of_further, list_elem_of_here
          | apply elem_of_cons in H as [H|H];
            [discriminate H | now apply not_elem_of_nil in H] ].
Qed.

(** A status that says connected with an expired token. *)
Lemma panel_buttons_witness :
  let s := {| xeroStatus := VObject (<["is_connected" := VBool true]>
                                     (<["is_token_valid" := VBool false]> ∅));
              loading := false; connecting := false; alerts := [];
              provider := {| browser_state := {| localStorage := ∅; location_href := "/settings" |};
                             common_headers := ∅; session_state := initial_session;
                             console_log := []; request_log := [] |} |} in
  render s = Some (Panel ConnectedExpired [Reconnect; Disconnect])
  /\ Disconnect ∈ [Reconnect; Disconnect].
Proof.
  intros s. split; [reflexivity|].
  apply (proj2 (proj2 (panel_buttons_match_indicator s ConnectedExpired
                         [Reconnect; Disconnect] eq_refl))).
  discriminate.
Defined.

(** X28: When the status request is not accepted, [loadXeroStatus] does not
    fail: the page leaves the loading state showing "Not Connected" with
    the Connect button only, and the error is on the console. *)
Theorem loadXeroStatus_refused (rep : reply) (s : state) :
  accepted rep = false ->
  exists s',
    loadXeroStatus rep s = (Return tt, s')
    /\ loading s' = false
    /\ xeroStatus s' = VObject (<["is_connected" := VBool false]> ∅)
    /\ render s' = Some (Panel NotConnected [Connect])
    /\ alerts s' = alerts s
    /\ exists e, console_log (provider s')
                 = console_log (provider s) ++ [("Failed to get Xero status:", e)].
Proof.
  intros Hno. run_page. cbn.
  destruct (settle_refused rep (browser_state (provider s)) Hno) as (e & Hs & _).
  rewrite Hs. cbn.
  eexists. split; [reflexivity|]. cbn.
  repeat (split; [reflexivity|]). now exists e.
Qed.

(** A server that answers 500. *)
Lemma loadXeroStatus_refused_witness :
  let s := {| xeroStatus := not_connected; loading := true; connecting := false;
              alerts := [];
              provider := {| browser_state := {| localStorage := ∅; location_href := "/settings" |};
                             common_headers := ∅; session_state := initial_session;
                             console_log := []; request_log := [] |} |} in
  exists s',
    loadXeroStatus (Responds {| status := 500; data := VNull |}) s = (Return tt, s')
    /\ render s' = Some (Panel NotConnected [Connect]).
Proof.
  intros s.
  destruct (loadXeroStatus_refused (Responds {| status := 500; data := VNull |}) s eq_refl)
    as (s' & Hrun & _ & _ & Hr & _).
  now exists s'.
Defined.

(** When the status request is accepted, the page shows what the answer
    says, whatever it is. *)
Theorem loadXeroStatus_accepted (r : response) (s : state) :
  validateStatus (status r) = true ->
  exists s',
    loadXeroStatus (Responds r) s = (Return tt, s')
    /\ loading s' = false
    /\ xeroStatus s' = data r
    /\ console_log (provider s') = console_log (provider s).
Proof.
  intros Hv. run_page. cbn. unfold receive. rewrite Hv. cbn.
  eexists. split; [reflexivity|]. cbn. repeat split; reflexivity.
Qed.

(** X29: [handleDisconnectXero]: without the confirmation nothing happens and
    nothing is sent; with it, an accepted request resets the status to not
    connected and a refused one leaves the status as it was; either way one
    alert tells the outcome. *)
Theorem handleDisconnectXero_outcomes (confirmed : bool) (rep : reply) (s : state) :
  exists s',
    handleDisconnectXero confirmed rep s = (Return tt, s')
    /\ if confirmed then
         map url (request_log (provider s'))
         = map url (request_log (provider s)) ++ ["/auth/xero/disconnect"]
         /\ if accepted rep then
              xeroStatus s' = not_connected
              /\ render (setLoading false s') = Some (Panel NotConnected [Connect])
              /\ alerts s' = alerts s ++ ["Successfully disconnected from Xero"]
            else
              xeroStatus s' = xeroStatus s
              /\ alerts s' = alerts s ++ ["Failed to disconnect from Xero"]
       else s' = s.
Proof.
  destruct confirmed; [|now exists s].
  run_page. cbn. unfold disconnectXero, Effect.try_catch, Effect.bind, send,
    log_error, modify, Effect.ret.
  destruct (accepted rep) eqn:Ha.
  - destruct (settle_accepted rep (browser_state (provider s)) Ha) as (r & _ & Hs).
    rewrite Hs. cbn. eexists. split; [reflexivity|]. cbn.
    split; [now rewrite List.map_app|]. repeat split; reflexivity.
  - destruct (settle_refused rep (browser_state (provider s)) Ha) as (e & Hs & _).
    rewrite Hs. cbn. eexists. split; [reflexivity|]. cbn.
    split; [now rewrite List.map_app|]. repeat split; reflexivity.
Qed.

Section Connect.

Variable number_to_string : number -> string.

(** X30: [handleConnectXero] never throws and always ends the connecting state:
    the error [connectXero] throws on is caught here and announced by one
    alert; after an accepted answer with an authorization URL the browser
    is on its way there and no alert is shown. *)
Theorem handleConnectXero_outcomes (rep : reply) (s : state) :
  exists s',
    handleConnectXero number_to_string rep s = (Return tt, s')
    /\ connecting s' = false
    /\ xeroStatus s' = xeroStatus s
    /\ ((alerts s' = alerts s
         /\ exists r u, rep = Responds r
                        /\ member (data r) "authorization_url" = Some u
                        /\ location_href (browser_state (provider s'))
                           = ToString number_to_string u)
        \/ alerts s' = alerts s ++ ["Failed to connect to Xero. Please try again."]).
Proof.
  run_page. cbn.
  pose proof (connectXero_run number_to_string rep (provider s)) as H.
  destruct (connectXero number_to_string rep (provider s)) as [[[]|e] w]; cbn.
  - destruct H as (r & u & -> & _ & Hu & Hhref & _).
    eexists. split; [reflexivity|]. cbn. repeat (split; [reflexivity|]).
    left. split; [reflexivity|]. now exists r, u.
  - eexists. split; [reflexivity|]. cbn. repeat (split; [reflexivity|]).
    now right.
Qed.

End Connect.

End SettingsFacts.
